(** * pymongo/auth.py: authentication helpers

    A shallow embedding of [pymongo/auth.py] and of the parts of its
    collaborators that the module relies on (text and byte strings, the
    [hashlib.md5] and [hmac] primitives, the command channel and the
    [kerberos] module), followed by the properties of the module.

    The embedding follows the Python 3 reading of the [bson.py3compat]
    shims: [string_type] is [str], [_unicode] is [str] and [b(s)] is
    [s.encode('latin-1')]. *)

From Stdlib Require Import NArith ZArith List Lia Bool Sumbool.
From Stdlib Require Import Strings.Ascii Strings.String Strings.Byte.
From stdpp Require Import base decidable countable list strings gmap pretty.

Local Open Scope N_scope.

(* ================================================================== *)
(** ** Text and byte strings *)
(* ================================================================== *)

Module Py.

(** A byte string ([bytes]) is a list of bytes. *)
Abbreviation bytes := (list byte).

Definition byte_of_N (n : N) : byte :=
  match Byte.of_N (n mod 256) with Some b => b | None => x00 end.

#[global] Instance byte_eq_dec : EqDecision byte := Byte.byte_eq_dec.

(** A text string ([str]) is a sequence of Unicode scalar values: code
    points below [0x110000] outside the surrogate range.  A [str] that
    holds a lone surrogate (which [encode('utf-8')] refuses) is not
    represented. *)
Definition is_scalar (n : N) : bool :=
  negb (0xD800 <=? n) || ((0xE000 <=? n) && negb (0x110000 <=? n)).

Definition uchar : Type := { n : N | is_scalar n = true }.
Abbreviation text := (list uchar).

Definition code (c : uchar) : N := proj1_sig c.

(** [chr n], with U+FFFD for an [n] that is no scalar value (where
    Python raises; the module never calls [chr]: it is used for
    literals only). *)
Definition chr (n : N) : uchar :=
  match Sumbool.sumbool_of_bool (is_scalar n) with
  | left H => exist _ n H
  | right _ => exist _ 0xFFFD eq_refl
  end.

(** A literal: every character of the ASCII literal [s] as a code
    point. *)
Definition lit (s : string) : text :=
  map (fun a => chr (N_of_ascii a)) (list_ascii_of_string s).

(** [s.encode('utf-8')] *)
Definition utf8_char (c : uchar) : bytes :=
  let n := code c in
  if n <? 0x80 then [byte_of_N n]
  else if n <? 0x800 then
    [byte_of_N (N.lor 0xC0 (N.shiftr n 6));
     byte_of_N (N.lor 0x80 (N.land n 0x3F))]
  else if n <? 0x10000 then
    [byte_of_N (N.lor 0xE0 (N.shiftr n 12));
     byte_of_N (N.lor 0x80 (N.land (N.shiftr n 6) 0x3F));
     byte_of_N (N.lor 0x80 (N.land n 0x3F))]
  else
    [byte_of_N (N.lor 0xF0 (N.shiftr n 18));
     byte_of_N (N.lor 0x80 (N.land (N.shiftr n 12) 0x3F));
     byte_of_N (N.lor 0x80 (N.land (N.shiftr n 6) 0x3F));
     byte_of_N (N.lor 0x80 (N.land n 0x3F))].

Definition encode_utf8 (s : text) : bytes := flat_map utf8_char s.

(** [s.encode('latin-1')]: [None] stands for [UnicodeEncodeError]. *)
Fixpoint encode_latin1 (s : text) : option bytes :=
  match s with
  | [] => Some []
  | c :: s' =>
      if code c <? 256 then
        match encode_latin1 s' with
        | Some bs => Some (byte_of_N (code c) :: bs)
        | None => None
        end
      else None
  end.

(** Lower-case hexadecimal digits, as [hexdigest] prints them. *)
Definition hex_digit (n : N) : N :=
  if n <? 10 then 48 + n else 87 + n.

Definition hex_byte (b : byte) : list N :=
  let n := Byte.to_N b in [hex_digit (n / 16); hex_digit (n mod 16)].

Definition hex_codes (bs : bytes) : list N := flat_map hex_byte bs.

Definition hexlify (bs : bytes) : text := map chr (hex_codes bs).

End Py.

(* ================================================================== *)
(** ** [hashlib.md5] (RFC 1321) and [hmac] (RFC 2104) *)
(* ================================================================== *)

Module Hashlib.
Import Py.

Definition w32 (x : N) : N := x mod 0x100000000.

Definition add32 (x y : N) : N := w32 (x + y).

Definition not32 (x : N) : N := N.lxor x 0xFFFFFFFF.

Definition rotl32 (x : N) (s : N) : N :=
  N.lor (w32 (N.shiftl x s)) (N.shiftr x (32 - s)).

(** Per-round shift amounts. *)
Definition S_table : list N :=
  [7; 12; 17; 22; 7; 12; 17; 22; 7; 12; 17; 22; 7; 12; 17; 22;
   5; 9; 14; 20; 5; 9; 14; 20; 5; 9; 14; 20; 5; 9; 14; 20;
   4; 11; 16; 23; 4; 11; 16; 23; 4; 11; 16; 23; 4; 11; 16; 23;
   6; 10; 15; 21; 6; 10; 15; 21; 6; 10; 15; 21; 6; 10; 15; 21].

(** [K_table[i] = floor(2^32 * abs(sin(i + 1)))]. *)
Definition K_table : list N :=
  [0xd76aa478; 0xe8c7b756; 0x242070db; 0xc1bdceee;
   0xf57c0faf; 0x4787c62a; 0xa8304613; 0xfd469501;
   0x698098d8; 0x8b44f7af; 0xffff5bb1; 0x895cd7be;
   0x6b901122; 0xfd987193; 0xa679438e; 0x49b40821;
   0xf61e2562; 0xc040b340; 0x265e5a51; 0xe9b6c7aa;
   0xd62f105d; 0x02441453; 0xd8a1e681; 0xe7d3fbc8;
   0x21e1cde6; 0xc33707d6; 0xf4d50d87; 0x455a14ed;
   0xa9e3e905; 0xfcefa3f8; 0x676f02d9; 0x8d2a4c8a;
   0xfffa3942; 0x8771f681; 0x6d9d6122; 0xfde5380c;
   0xa4beea44; 0x4bdecfa9; 0xf6bb4b60; 0xbebfbc70;
   0x289b7ec6; 0xeaa127fa; 0xd4ef3085; 0x04881d05;
   0xd9d4d039; 0xe6db99e5; 0x1fa27cf8; 0xc4ac5665;
   0xf4292244; 0x432aff97; 0xab9423a7; 0xfc93a039;
   0x655b59c3; 0x8f0ccc92; 0xffeff47d; 0x85845dd1;
   0x6fa87e4f; 0xfe2ce6e0; 0xa3014314; 0x4e0811a1;
   0xf7537e82; 0xbd3af235; 0x2ad7d2bb; 0xeb86d391].

(** The chaining state: the four words A, B, C, D. *)
Record md5_state := MkState { rA : N; rB : N; rC : N; rD : N }.

Definition md5_init : md5_state :=
  MkState 0x67452301 0xefcdab89 0x98badcfe 0x10325476.

(** Little-endian words. *)
Definition le32_bytes (x : N) : bytes :=
  [byte_of_N x; byte_of_N (N.shiftr x 8);
   byte_of_N (N.shiftr x 16); byte_of_N (N.shiftr x 24)].

Definition le64_bytes (x : N) : bytes :=
  le32_bytes (w32 x) ++ le32_bytes (w32 (N.shiftr x 32)).

Fixpoint le_word (bs : bytes) : N :=
  match bs with
  | [] => 0
  | b :: bs' => Byte.to_N b + 256 * le_word bs'
  end.

(** The words of a block: four bytes each. *)
Fixpoint words (n : nat) (bs : bytes) : list N :=
  match n with
  | O => []
  | S n' => le_word (take 4 bs) :: words n' (drop 4 bs)
  end.

(** One of the 64 operations. *)
Definition md5_op (M : list N) (i : N) (st : md5_state) : md5_state :=
  let '(MkState a b c d) := st in
  let '(f, g) :=
    if i <? 16 then (N.lor (N.land b c) (N.land (not32 b) d), i)
    else if i <? 32 then
      (N.lor (N.land d b) (N.land (not32 d) c), (5 * i + 1) mod 16)
    else if i <? 48 then (N.lxor (N.lxor b c) d, (3 * i + 5) mod 16)
    else (N.lxor c (N.lor b (not32 d)), (7 * i) mod 16) in
  let k := nth (N.to_nat i) K_table 0 in
  let s := nth (N.to_nat i) S_table 0 in
  let m := nth (N.to_nat g) M 0 in
  let f' := add32 (add32 (add32 f a) k) m in
  MkState d (add32 b (rotl32 f' s)) b c.

Definition md5_block (st : md5_state) (block : bytes) : md5_state :=
  let M := words 16 block in
  let st' := fold_left (fun s i => md5_op M (N.of_nat i) s) (seq 0 64) st in
  MkState (add32 (rA st) (rA st')) (add32 (rB st) (rB st'))
          (add32 (rC st) (rC st')) (add32 (rD st) (rD st')).

(** Padding: a one bit, zeros up to 56 modulo 64, the bit length. *)
Definition md5_pad (msg : bytes) : bytes :=
  let len := length msg in
  let zeros := ((55 + 64 - len mod 64) mod 64)%nat in
  msg ++ [x80] ++ repeat x00 zeros ++ le64_bytes (8 * N.of_nat len).

Fixpoint md5_blocks (n : nat) (st : md5_state) (bs : bytes) : md5_state :=
  match n with
  | O => st
  | S n' => md5_blocks n' (md5_block st (take 64 bs)) (drop 64 bs)
  end.

(** [md5(msg).digest()] *)
Definition md5 (msg : bytes) : bytes :=
  let padded := md5_pad msg in
  let st := md5_blocks (length padded / 64) md5_init padded in
  le32_bytes (rA st) ++ le32_bytes (rB st) ++
  le32_bytes (rC st) ++ le32_bytes (rD st).

(** [md5(msg).hexdigest()] *)
Definition md5_hexdigest (msg : bytes) : text := hexlify (md5 msg).

End Hashlib.

Module Hmac.
Import Py Hashlib.

Definition xor_byte (p : N) (b : byte) : byte :=
  byte_of_N (N.lxor (Byte.to_N b) p).

Definition block_size : nat := 64.

(** [hmac.HMAC(key, digestmod=md5)] followed by [update(msg)]. *)
Definition hmac_md5 (key msg : bytes) : bytes :=
  let k := if (block_size <? length key)%nat then md5 key else key in
  let k' := k ++ repeat x00 (block_size - length k) in
  md5 (map (xor_byte 0x5C) k' ++ md5 (map (xor_byte 0x36) k' ++ msg)).

Definition hmac_md5_hexdigest (key msg : bytes) : text :=
  hexlify (hmac_md5 key msg).

End Hmac.

(* ================================================================== *)
(** ** Python values, exceptions and the operations the module uses *)
(* ================================================================== *)

Module Value.
Import Py.

#[global] Instance uchar_eq_dec : EqDecision uchar := _.
#[global] Instance uchar_countable : Countable uchar := _.

(** Modelled from the spec: [bson.binary.Binary] is defined outside
    this module; the spec has the payloads of PLAIN and CRAM-MD5 as
    [<binary>] holding the bytes, which [VBinary] is.  The other
    values that reach the module are [None], integers, text and byte
    strings. *)
Inductive value :=
  | VNone
  | VInt (n : Z)
  | VStr (s : text)
  | VBytes (b : bytes)
  | VBinary (b : bytes).

#[global] Instance value_eq_dec : EqDecision value.
Proof. solve_decision. Defined.

(** A text literal as a value. *)
Definition str (s : string) : value := VStr (lit s).

(** A [dict] with text keys. *)
Abbreviation dict := (gmap text value).

(** Modelled from the spec: [bson.son.SON] is defined outside this
    module; the spec has the field order of a command as significant,
    so a [SON] document is the list of its fields in order. *)
Abbreviation SON := (list (text * value)).

(** Modelled from the spec: [pymongo.errors] is defined outside this
    module; the spec has [ConfigurationError] and [OperationFailure]
    as two distinct error types that carry a message.  The other
    constructors are the exceptions of Python that the module meets;
    [OtherError] stands for what a collaborator may raise besides. *)
Inductive exn :=
  | TypeError (msg : text)
  | ValueError (msg : text)
  | KeyError (key : text)
  | AttributeError (msg : text)
  | UnicodeEncodeError
  | ConfigurationError (msg : text)
  | OperationFailure (msg : text)
  | KrbError (msg : text)
  | NameError (msg : text)
  | OtherError (name msg : text).

Inductive result (A : Type) :=
  | Ret (a : A)
  | Raise (e : exn).
Arguments Ret {A} a.
Arguments Raise {A} e.

(** [repr] of a byte string. *)
Definition repr_byte (q : N) (b : byte) : list N :=
  let n := Byte.to_N b in
  if n =? 92 then [92; 92]
  else if n =? q then [92; q]
  else if n =? 9 then [92; 116]
  else if n =? 10 then [92; 110]
  else if n =? 13 then [92; 114]
  else if (n <? 32) || (126 <? n) then
    [92; 120; hex_digit (n / 16); hex_digit (n mod 16)]
  else [n].

Definition has_byte (n : N) (bs : bytes) : bool :=
  existsb (fun b => Byte.to_N b =? n) bs.

Definition bytes_repr (bs : bytes) : text :=
  let q := if has_byte 39 bs && negb (has_byte 34 bs) then 34 else 39 in
  map chr ([98; q] ++ flat_map (repr_byte q) bs ++ [q]).

(** [str(v)], which is also what [%s] puts for [v].  [Binary] is a
    subclass of [bytes] that overrides [__repr__] only, so [str] of it
    is that of the byte string. *)
Definition py_str (v : value) : text :=
  match v with
  | VNone => lit "None"
  | VInt n => lit (pretty n)
  | VStr s => s
  | VBytes b | VBinary b => bytes_repr b
  end.

(** Truth value of [v], as [or] tests it. *)
Definition py_truthy (v : value) : bool :=
  match v with
  | VNone => false
  | VInt n => negb (n =? 0)%Z
  | VStr s => negb (bool_decide (s = []))
  | VBytes b | VBinary b => negb (bool_decide (b = []))
  end.

(** [a or b] *)
Definition py_or (a b : value) : value := if py_truthy a then a else b.

(** Modelled from the spec: [bson.py3compat.string_type] is defined
    outside this module; the spec has [isinstance(v, string_type)]
    pass for textual arguments. *)
Definition is_string (v : value) : bool :=
  match v with VStr _ => true | _ => false end.

(** [type(v).__name__] *)
Definition type_name (v : value) : text :=
  match v with
  | VNone => lit "NoneType"
  | VInt _ => lit "int"
  | VStr _ => lit "str"
  | VBytes _ => lit "bytes"
  | VBinary _ => lit "Binary"
  end.

(** [a + b] *)
Definition py_add (a b : value) : result value :=
  match a, b with
  | VStr x, VStr y => Ret (VStr (x ++ y))
  | VInt x, VInt y => Ret (VInt (x + y))
  | (VBytes x | VBinary x), (VBytes y | VBinary y) => Ret (VBytes (x ++ y))
  | VStr _, _ =>
      Raise (TypeError (lit "can only concatenate str (not " ++
                        chr 34 :: type_name b ++ chr 34 :: lit ") to str"))
  | (VBytes _ | VBinary _), _ =>
      Raise (TypeError (lit "can't concat " ++ type_name b ++
                        lit " to bytes"))
  | _, _ =>
      Raise (TypeError (lit "unsupported operand type(s) for +: '" ++
                        type_name a ++ lit "' and '" ++ type_name b ++ lit "'"))
  end.

(** [len(v)] *)
Definition py_len (v : value) : result nat :=
  match v with
  | VStr s => Ret (length s)
  | VBytes b | VBinary b => Ret (length b)
  | _ => Raise (TypeError (lit "object of type '" ++ type_name v ++
                           lit "' has no len()"))
  end.

(** [v.encode('utf-8')] *)
Definition py_encode_utf8 (v : value) : result bytes :=
  match v with
  | VStr s => Ret (encode_utf8 s)
  | _ => Raise (AttributeError (lit "'" ++ type_name v ++
                                lit "' object has no attribute 'encode'"))
  end.

(** Modelled from the spec: [bson.py3compat.b] is defined outside this
    module; the spec has the hex digits of the MAC as part of a byte
    string, one byte for a digit, which is the Latin-1 encoding of a
    text [s]. *)
Definition b (s : text) : result bytes :=
  match encode_latin1 s with
  | Some bs => Ret bs
  | None => Raise UnicodeEncodeError
  end.

(** [d[key]] on a dict *)
Definition getitem (d : dict) (key : text) : result value :=
  match d !! key with
  | Some v => Ret v
  | None => Raise (KeyError key)
  end.

(** [fmt % args] for a format that holds only [%s] and [%%]. *)
Fixpoint py_format (fmt : text) (args : list value) : result text :=
  match fmt with
  | [] =>
      match args with
      | [] => Ret []
      | _ => Raise (TypeError
                 (lit "not all arguments converted during string formatting"))
      end
  | c :: fmt' =>
      if code c =? 37 then
        match fmt' with
        | d :: fmt'' =>
            if code d =? 115 then
              match args with
              | a :: args' =>
                  match py_format fmt'' args' with
                  | Ret t => Ret (py_str a ++ t)
                  | Raise e => Raise e
                  end
              | [] => Raise (TypeError
                         (lit "not enough arguments for format string"))
              end
            else if code d =? 37 then
              match py_format fmt'' args with
              | Ret t => Ret (c :: t)
              | Raise e => Raise e
              end
            else Raise (ValueError (lit "unsupported format character"))
        | [] => Raise (ValueError (lit "incomplete format"))
        end
      else
        match py_format fmt' args with
        | Ret t => Ret (c :: t)
        | Raise e => Raise e
        end
  end.

End Value.

Import Py Hashlib Hmac Value.

(* ================================================================== *)
(** ** Collaborators and effects *)
(* ================================================================== *)

Module World.

(** The connection handed to [cmd_func]; the module reads [host]. *)
Record sock_info := SockInfo { host : value }.

(** A security context of the [kerberos] module, by its handle. *)
Definition context := N.

(** What the module does to its collaborators, in order: the commands
    sent through [cmd_func] and the calls into [kerberos]. *)
Inductive event :=
  | Command (sock : sock_info) (dbname : value) (cmd : SON)
  | GSSInit (service : value) (gssflags : Z)
  | GSSStep (c : context) (challenge : text)
  | GSSResponse (c : context)
  | GSSUnwrap (c : context) (challenge : text)
  | GSSWrap (c : context) (data : value) (user : value)
  | GSSClean (c : context).

Abbreviation history := (list event).

(** The collaborators: whether [import kerberos] succeeded, the command
    channel and the [kerberos] functions.  Each answers from the
    history of the run so far and its arguments; it returns or raises. *)
Record collaborators := Collaborators {
  HAVE_KERBEROS : bool;
  cmd_func : history -> sock_info -> value -> SON -> result dict;
  authGSSClientInit : history -> value -> Z -> result (Z * context);
  authGSSClientStep : history -> context -> text -> result Z;
  authGSSClientResponse : history -> context -> result value;
  authGSSClientUnwrap : history -> context -> text -> result Z;
  authGSSClientWrap : history -> context -> value -> value -> result Z;
  authGSSClientClean : history -> context -> result Z
}.

(** [kerberos.AUTH_GSS_COMPLETE]: for the results of [kerberos] the
    module has 0 == continue, 1 == complete, -1 == error. *)
Definition AUTH_GSS_COMPLETE : Z := 1.

(** [kerberos.GSS_C_MUTUAL_FLAG] *)
Definition GSS_C_MUTUAL_FLAG : Z := 2.

(** A computation reads and extends the history and returns or
    raises. *)
Definition M (A : Type) : Type := history -> result A * history.

Definition ret {A} (a : A) : M A := fun h => (Ret a, h).

Definition raise {A} (e : exn) : M A := fun h => (Raise e, h).

Definition bind {A B} (m : M A) (k : A -> M B) : M B := fun h =>
  match m h with
  | (Ret a, h') => k a h'
  | (Raise e, h') => (Raise e, h')
  end.

(** A pure step that may raise. *)
Definition lift {A} (r : result A) : M A := fun h => (r, h).

(** A call to a collaborator: it answers from the history, and the call
    is recorded. *)
Definition call {A} (ev : event) (answer : history -> result A) : M A :=
  fun h => (answer h, h ++ [ev]).

(** [try: body finally: final] *)
Definition try_finally {A B} (body : M A) (final : M B) : M A := fun h =>
  match body h with
  | (r, h') =>
      match final h' with
      | (Ret _, h'') => (r, h'')
      | (Raise e, h'') => (Raise e, h'')
      end
  end.

(** [try: body except kerberos.KrbError as exc: handler(str(exc))] *)
Definition except_KrbError {A} (body : M A) (handler : text -> M A) : M A :=
  fun h =>
    match body h with
    | (Raise (KrbError msg), h') => handler msg h'
    | other => other
    end.

(** The run of [m] from the start of a connection. *)
Definition run {A} (m : M A) : result A * history := m [].

End World.

Import World.

Notation "'let!' x ':=' m 'in' k" := (bind m (fun x => k))
  (at level 10, x name, m at level 100, k at level 200).
Notation "'do!' m 'in' k" := (bind m (fun _ => k))
  (at level 10, m at level 100, k at level 200).
Notation "'let?' x ':=' r 'in' k" :=
  (match r with Ret x => k | Raise e => Raise e end)
  (at level 10, x name, r at level 100, k at level 200).

(* ================================================================== *)
(** ** pymongo/auth.py *)
(* ================================================================== *)

Module Auth.

(** The authentication mechanisms supported by PyMongo. *)
Definition MECHANISMS : gset text :=
  {[ lit "GSSAPI"; lit "MONGODB-CR"; lit "MONGODB-X509"; lit "PLAIN" ]}.

Record MongoCredential := Credential {
  mechanism : value;
  source : value;
  username : value;
  password : value;
  mechanism_properties : option dict
}.

(** Build and return a mechanism specific credentials tuple. *)
Definition _build_credentials_tuple
    (mech source user passwd : value) (extra : dict) : MongoCredential :=
  if decide (mech = str "GSSAPI") then
    let props : dict :=
      {[ lit "service_name" :=
           default (str "mongodb") (extra !! lit "gssapiservicename") ]} in
    Credential mech (str "$external") user VNone (Some props)
  else if decide (mech = str "MONGODB-X509") then
    Credential mech (str "$external") user VNone None
  else Credential mech source user passwd None.

(** Get a password digest to use for authentication. *)
Definition _password_digest (username password : value) : result value :=
  if negb (is_string password) then
    Raise (TypeError (lit "password must be an instance of str"))
  else
    let? n := py_len password in
    if (n =? 0)%nat then Raise (ValueError (lit "password can't be empty"))
    else if negb (is_string username) then
      Raise (TypeError (lit "password must be an instance of  str"))
    else
      let? data := py_format (lit "%s:mongo:%s") [username; password] in
      Ret (VStr (md5_hexdigest (encode_utf8 data))).

(** Get an auth key to use for authentication. *)
Definition _auth_key (nonce username password : value) : result value :=
  let? digest := _password_digest username password in
  let? data :=
    py_format (lit "%s%s%s") [nonce; VStr (py_str username); digest] in
  Ret (VStr (md5_hexdigest (encode_utf8 data))).

(** What [hmac] and [hashlib] accept in [update]. *)
Definition bytes_like (v : value) : result bytes :=
  match v with
  | VBytes b | VBinary b => Ret b
  | VStr _ => Raise (TypeError (lit "Strings must be encoded before hashing"))
  | _ => Raise (TypeError (lit "object supporting the buffer API required"))
  end.

(** What the dispatch map holds. *)
Abbreviation authenticator := (MongoCredential -> sock_info -> M unit).

Section Authenticators.

Variable K : collaborators.

Definition send (sock : sock_info) (dbname : value) (cmd : SON) : M dict :=
  call (Command sock dbname cmd) (fun h => cmd_func K h sock dbname cmd).

Definition kerberos_authGSSClientInit (service : value) (gssflags : Z)
    : M (Z * context) :=
  call (GSSInit service gssflags)
       (fun h => authGSSClientInit K h service gssflags).

Definition kerberos_authGSSClientStep (c : context) (challenge : text) : M Z :=
  call (GSSStep c challenge) (fun h => authGSSClientStep K h c challenge).

Definition kerberos_authGSSClientResponse (c : context) : M value :=
  call (GSSResponse c) (fun h => authGSSClientResponse K h c).

Definition kerberos_authGSSClientUnwrap (c : context) (challenge : text)
    : M Z :=
  call (GSSUnwrap c challenge) (fun h => authGSSClientUnwrap K h c challenge).

Definition kerberos_authGSSClientWrap (c : context) (data user : value)
    : M Z :=
  call (GSSWrap c data user) (fun h => authGSSClientWrap K h c data user).

Definition kerberos_authGSSClientClean (c : context) : M Z :=
  call (GSSClean c) (fun h => authGSSClientClean K h c).

(** The [for _ in range(n)] loop of [_authenticate_gssapi] with its
    [else] branch; it returns the last reply of the server. *)
Fixpoint negotiate (n : nat) (sock : sock_info) (ctx : context)
    (response : dict) : M dict :=
  match n with
  | O =>
      raise (OperationFailure
               (lit "Kerberos authentication failed to complete."))
  | S n' =>
      let! challenge := lift (getitem response (lit "payload")) in
      let! result := kerberos_authGSSClientStep ctx (py_str challenge) in
      if (result =? -1)%Z then
        raise (OperationFailure
                 (lit "Unknown kerberos failure in step function."))
      else
        let! out := kerberos_authGSSClientResponse ctx in
        let payload := py_or out (str "") in
        let! cid := lift (getitem response (lit "conversationId")) in
        let cmd := [(lit "saslContinue", VInt 1);
                    (lit "conversationId", cid);
                    (lit "payload", payload)] in
        let! response' := send sock (str "$external") cmd in
        if (result =? AUTH_GSS_COMPLETE)%Z then ret response'
        else negotiate n' sock ctx response'
  end.

(** The body of the inner [try] of [_authenticate_gssapi]. *)
Definition gssapi_handshake (username : value) (sock : sock_info)
    (ctx : context) : M unit :=
  let! first := kerberos_authGSSClientStep ctx [] in
  if negb (first =? 0)%Z then
    raise (OperationFailure
             (lit "Unknown kerberos failure in step function."))
  else
    let! payload := kerberos_authGSSClientResponse ctx in
    let cmd := [(lit "saslStart", VInt 1);
                (lit "mechanism", str "GSSAPI");
                (lit "payload", payload);
                (lit "autoAuthorize", VInt 1)] in
    let! response := send sock (str "$external") cmd in
    let! response := negotiate 10 sock ctx response in
    let! challenge := lift (getitem response (lit "payload")) in
    let! unwrapped := kerberos_authGSSClientUnwrap ctx (py_str challenge) in
    if negb (unwrapped =? 1)%Z then
      raise (OperationFailure
               (lit "Unknown kerberos failure during GSS_Unwrap step."))
    else
      let! data := kerberos_authGSSClientResponse ctx in
      let! wrapped := kerberos_authGSSClientWrap ctx data username in
      if negb (wrapped =? 1)%Z then
        raise (OperationFailure
                 (lit "Unknown kerberos failure during GSS_Wrap step."))
      else
        let! payload := kerberos_authGSSClientResponse ctx in
        let! cid := lift (getitem response (lit "conversationId")) in
        let cmd := [(lit "saslContinue", VInt 1);
                    (lit "conversationId", cid);
                    (lit "payload", payload)] in
        do! send sock (str "$external") cmd in
        ret tt.

(** Authenticate using GSSAPI.  Where [import kerberos] failed the name
    [kerberos] is unbound: the body raises on its way to the first call
    at the latest, and so does the [except kerberos.KrbError] clause
    that is tried then, before anything has been sent. *)
Definition _authenticate_gssapi (credentials : MongoCredential)
    (sock : sock_info) : M unit :=
  if negb (HAVE_KERBEROS K) then
    raise (NameError (lit "name 'kerberos' is not defined"))
  else
  except_KrbError
    (let username := username credentials in
     let! gsn :=
       match mechanism_properties credentials with
       | Some props => lift (getitem props (lit "service_name"))
       | None => raise (TypeError
                          (lit "'NoneType' object is not subscriptable"))
       end in
     let! prefix := lift (py_add gsn (str "@")) in
     let! service := lift (py_add prefix (host sock)) in
     let! init := kerberos_authGSSClientInit service GSS_C_MUTUAL_FLAG in
     let '(result, ctx) := init in
     if negb (result =? AUTH_GSS_COMPLETE)%Z then
       raise (OperationFailure (lit "Kerberos context failed to initialize."))
     else
       try_finally (gssapi_handshake username sock ctx)
                   (kerberos_authGSSClientClean ctx))
    (fun msg => raise (OperationFailure msg)).

(** Authenticate using SASL PLAIN (RFC 4616) *)
Definition _authenticate_plain (credentials : MongoCredential)
    (sock : sock_info) : M unit :=
  let source := source credentials in
  let username := username credentials in
  let password := password credentials in
  let! data := lift (py_format (chr 0 :: lit "%s" ++ chr 0 :: lit "%s")
                               [username; password]) in
  let payload := encode_utf8 data in
  let cmd := [(lit "saslStart", VInt 1);
              (lit "mechanism", str "PLAIN");
              (lit "payload", VBinary payload);
              (lit "autoAuthorize", VInt 1)] in
  do! send sock source cmd in
  ret tt.

(** Authenticate using CRAM-MD5 (RFC 2195) *)
Definition _authenticate_cram_md5 (credentials : MongoCredential)
    (sock : sock_info) : M unit :=
  let source := source credentials in
  let username := username credentials in
  let password := password credentials in
  let! passwd := lift (_password_digest username password) in
  let cmd := [(lit "saslStart", VInt 1);
              (lit "mechanism", str "CRAM-MD5");
              (lit "payload", VBinary []);
              (lit "autoAuthorize", VInt 1)] in
  let! response := send sock source cmd in
  let! key := lift (py_encode_utf8 passwd) in
  let! payload := lift (getitem response (lit "payload")) in
  let! msg := lift (bytes_like payload) in
  let! user := lift (py_encode_utf8 username) in
  let! digest := lift (b (hmac_md5_hexdigest key msg)) in
  let challenge := user ++ [" "%byte] ++ digest in
  let! cid := lift (getitem response (lit "conversationId")) in
  let cmd := [(lit "saslContinue", VInt 1);
              (lit "conversationId", cid);
              (lit "payload", VBinary challenge)] in
  do! send sock source cmd in
  ret tt.

(** Authenticate using MONGODB-X509. *)
Definition _authenticate_x509 (credentials : MongoCredential)
    (sock : sock_info) : M unit :=
  let query := [(lit "authenticate", VInt 1);
                (lit "mechanism", str "MONGODB-X509");
                (lit "user", username credentials)] in
  do! send sock (str "$external") query in
  ret tt.

(** Authenticate using MONGODB-CR. *)
Definition _authenticate_mongo_cr (credentials : MongoCredential)
    (sock : sock_info) : M unit :=
  let source := source credentials in
  let username := username credentials in
  let password := password credentials in
  let! response := send sock source [(lit "getnonce", VInt 1)] in
  let! nonce := lift (getitem response (lit "nonce")) in
  let! key := lift (_auth_key nonce username password) in
  let query := [(lit "authenticate", VInt 1);
                (lit "user", username);
                (lit "nonce", nonce);
                (lit "key", key)] in
  do! send sock source query in
  ret tt.

Definition _AUTH_MAP : gmap text authenticator :=
  <[ lit "CRAM-MD5" := _authenticate_cram_md5 ]>
  (<[ lit "GSSAPI" := _authenticate_gssapi ]>
  (<[ lit "MONGODB-CR" := _authenticate_mongo_cr ]>
  (<[ lit "MONGODB-X509" := _authenticate_x509 ]>
  (<[ lit "PLAIN" := _authenticate_plain ]> ∅)))).

(** [_AUTH_MAP.get(key)]: the keys of the map are text. *)
Definition auth_map_get (key : value) : option authenticator :=
  match key with
  | VStr s => _AUTH_MAP !! s
  | _ => None
  end.

(** Authenticate sock_info. *)
Definition authenticate (credentials : MongoCredential) (sock : sock_info)
    : M unit :=
  let mechanism := mechanism credentials in
  do! (if decide (mechanism = str "GSSAPI") then
         if negb (HAVE_KERBEROS K) then
           raise (ConfigurationError
                    (lit "The " ++ chr 34 :: lit "kerberos" ++ chr 34 ::
                     lit " module must be installed to use GSSAPI authentication."))
         else ret tt
       else ret tt) in
  match auth_map_get mechanism with
  | Some auth_func => auth_func credentials sock
  | None => raise (TypeError (lit "'NoneType' object is not callable"))
  end.

End Authenticators.

End Auth.

Import Auth.

(* ================================================================== *)
(** ** The specification's vocabulary *)
(* ================================================================== *)

Module Spec.

(** [passwordDigest(username, password)]: the hex MD5 digest of the
    UTF-8 bytes of ["<username>:mongo:<password>"]. *)
Definition passwordDigest (username password : text) : text :=
  hexlify (md5 (encode_utf8 (username ++ lit ":mongo:" ++ password))).

(** [authKey(nonce, username, password)]: the hex MD5 digest of
    ["<nonce><username><passwordDigest>"]. *)
Definition authKey (nonce username password : text) : text :=
  hexlify (md5 (encode_utf8
                  (nonce ++ username ++ passwordDigest username password))).

(** The mechanism enumeration of the specification. *)
Definition five_mechanisms : gset text :=
  {[ lit "GSSAPI"; lit "MONGODB-CR"; lit "MONGODB-X509"; lit "PLAIN";
     lit "CRAM-MD5" ]}.

(** The keys of the dispatch map, as values. *)
Definition dispatch_keys : list value :=
  [str "CRAM-MD5"; str "GSSAPI"; str "MONGODB-CR"; str "MONGODB-X509";
   str "PLAIN"].

(** [InvalidArgument]: the module raises [TypeError] and [ValueError]. *)
Definition InvalidArgument (e : exn) : Prop :=
  match e with
  | TypeError _ | ValueError _ => True
  | _ => False
  end.

(** The typed authentication errors. *)
Definition typed_auth_error (e : exn) : Prop :=
  match e with
  | ConfigurationError _ | OperationFailure _ => True
  | _ => False
  end.

Definition is_command (ev : event) : bool :=
  match ev with Command _ _ _ => true | _ => false end.

Definition is_step (ev : event) : bool :=
  match ev with GSSStep _ _ => true | _ => false end.

Definition is_clean (ev : event) : bool :=
  match ev with GSSClean _ => true | _ => false end.

(** How many events of a kind a run made. *)
Definition count (kind : event -> bool) (evs : history) : nat :=
  length (List.filter kind evs).

(** [m] extends the history, by at most [n] events of a kind. *)
Definition emits {A} (kind : event -> bool) (n : nat) (m : M A) : Prop :=
  forall h, exists evs, snd (m h) = h ++ evs /\ (count kind evs <= n)%nat.

(** The [saslStart] and [saslContinue] documents. *)
Definition saslStart (mech : string) (payload : value) : SON :=
  [(lit "saslStart", VInt 1); (lit "mechanism", str mech);
   (lit "payload", payload); (lit "autoAuthorize", VInt 1)].

Definition saslContinue (conversationId payload : value) : SON :=
  [(lit "saslContinue", VInt 1); (lit "conversationId", conversationId);
   (lit "payload", payload)].


(** The service principal of a GSSAPI run,
    ["<service_name>@<host>"], or the error of building it. *)
Definition service_principal (credentials : MongoCredential)
    (sock : sock_info) : result value :=
  match mechanism_properties credentials with
  | Some props =>
      let? gsn := getitem props (lit "service_name") in
      let? prefix := py_add gsn (str "@") in
      py_add prefix (host sock)
  | None => Raise (TypeError (lit "'NoneType' object is not subscriptable"))
  end.

(** An error of the security library, as the caller sees it. *)
Definition translated {A} (r : result A) : result A :=
  match r with
  | Raise (KrbError msg) => Raise (OperationFailure msg)
  | other => other
  end.

(** The result of a command, for a caller that drops the reply. *)
Definition dropped {A} (r : result A) : result unit :=
  match r with Ret _ => Ret tt | Raise e => Raise e end.

End Spec.

Import Spec.

(* ================================================================== *)
(** ** Collaborators for the scenarios *)
(* ================================================================== *)

Module Mock.

(** The challenge of the CRAM-MD5 scenario, [b"<1896.6969@mail>"]. *)
Definition challenge : bytes := encode_utf8 (lit "<1896.6969@mail>").

(** A reply that carries every field an authenticator reads. *)
Definition reply : dict :=
  <[ lit "conversationId" := VInt 1 ]>
  (<[ lit "payload" := VBinary challenge ]>
  (<[ lit "nonce" := str "abc123" ]> ∅)).

(** A server that answers every command with [reply], and a security
    library whose context 7 is initialised with [init_result], whose
    steps ask for continuation until the step made after [n] earlier
    ones ([complete_at = Some n]) reports completion, and whose other
    calls succeed. *)
Definition mock (have_kerberos : bool) (init_result : Z)
    (complete_at : option nat) : collaborators :=
  Collaborators have_kerberos
    (fun _ _ _ _ => Ret reply)
    (fun _ _ _ => Ret (init_result, 7))
    (fun h _ _ =>
       Ret (if bool_decide (complete_at = Some (count is_step h))
            then 1%Z else 0%Z))
    (fun _ _ => Ret (str "dG9rZW4="))
    (fun _ _ _ => Ret 1%Z)
    (fun _ _ _ _ => Ret 1%Z)
    (fun _ _ => Ret 0%Z).

Definition sock : sock_info := SockInfo (str "db.example.com").

Definition gssapi_credential : MongoCredential :=
  _build_credentials_tuple (str "GSSAPI") (str "admin")
    (str "user@EXAMPLE.COM") (str "ignored") ∅.

End Mock.

(* ================================================================== *)
(** ** Kinds of events and shapes of values *)
(* ================================================================== *)

Module Observe.

(** A call into the [kerberos] module. *)
Definition is_kerberos (ev : event) : bool :=
  match ev with Command _ _ _ => false | _ => true end.

(** Any call to a collaborator. *)
Definition is_call (ev : event) : bool := true.

(** A command sent to a database other than ["$external"]. *)
Definition is_foreign_command (ev : event) : bool :=
  match ev with
  | Command _ dbname _ => negb (bool_decide (dbname = str "$external"))
  | _ => false
  end.

(** A lower-case hexadecimal digit, by its code point. *)
Definition is_hex_digit (c : uchar) : bool :=
  ((48 <=? code c) && (code c <=? 57)) ||
  ((97 <=? code c) && (code c <=? 102)).

(** The [authenticate] document of MONGODB-X509. *)
Definition x509_query (user : value) : SON :=
  [(lit "authenticate", VInt 1); (lit "mechanism", str "MONGODB-X509");
   (lit "user", user)].



End Observe.

Import Observe.

(* ================================================================== *)
(** ** Properties *)
(* ================================================================== *)

(** *** Text, bytes and digests *)

Arguments lit : simpl never.
Arguments py_format : simpl never.
Arguments md5 : simpl never.
Arguments hexlify : simpl never.
Arguments encode_utf8 : simpl never.

Lemma code_chr (n : N) : is_scalar n = true -> code (chr n) = n.
Proof.
  intros H. unfold chr.
  destruct (sumbool_of_bool (is_scalar n)) as [E | E]; [reflexivity |].
  congruence.
Qed.

Lemma text_eq_codes (s t : text) : map code s = map code t -> s = t.
Proof.
  revert t. induction s as [| c s IH]; intros [| d t] H; try discriminate.
  - reflexivity.
  - injection H as Hc Hs. f_equal; [| auto].
    destruct c as [x Hx], d as [y Hy]. simpl in Hc. subst y.
    f_equal. apply (proof_irrel Hx Hy).
Qed.

(** The scalar values: the code points outside the surrogate range. *)
Lemma is_scalar_spec (n : N) :
  is_scalar n = true <-> n < 0xD800 \/ (0xE000 <= n /\ n < 0x110000).
Proof.
  unfold is_scalar.
  rewrite orb_true_iff, andb_true_iff, !negb_true_iff, !N.leb_gt, N.leb_le.
  reflexivity.
Qed.

(** One, two, three and four bytes of UTF-8: U+0041, U+00E9, U+20AC
    and U+1F600. *)
Example encode_utf8_vectors :
  encode_utf8 [chr 0x41; chr 0xE9; chr 0x20AC; chr 0x1F600] =
  [x41; xc3; xa9; xe2; x82; xac; xf0; x9f; x98; x80].
Proof. reflexivity. Qed.

(** [str] of byte strings: the choice of quotes and the escapes. *)
Example bytes_repr_vectors :
  map code (py_str (VBytes [x61; x27; x62])) = [98; 34; 97; 39; 98; 34] /\
  map code (py_str (VBytes [x61; x22; x62])) = [98; 39; 97; 34; 98; 39] /\
  map code (py_str (VBytes [x61; x27; x62; x22])) =
    [98; 39; 97; 92; 39; 98; 34; 39] /\
  map code (py_str (VBytes [x00; x0a; x5c; x7f; xff; x7e; x20])) =
    [98; 39; 92; 120; 48; 48; 92; 110; 92; 92; 92; 120; 55; 102;
     92; 120; 102; 102; 126; 32; 39] /\
  py_str (VInt (-12)) = lit "-12" /\ py_str VNone = lit "None".
Proof. vm_compute. repeat split. Qed.

(** [str] of a [Binary] is [str] of its bytes; the key of a nonce that
    is a [Binary], and the operands that [+] refuses. *)
Example binary_vectors :
  py_str (VBinary [x61; x62]) = lit "b'ab'" /\
  _auth_key (VBinary [x61; x62]) (str "bob") (str "pw") =
    Ret (str "23bd483afe046829d4cf70934692a0ae") /\
  py_add (str "mongodb") (VInt 1) =
    Raise (TypeError (lit "can only concatenate str (not " ++
                      chr 34 :: lit "int" ++ chr 34 :: lit ") to str")) /\
  py_add (VBytes [x61]) (str "x") =
    Raise (TypeError (lit "can't concat str to bytes")) /\
  py_add VNone (str "x") =
    Raise (TypeError
             (lit "unsupported operand type(s) for +: 'NoneType' and 'str'")).
Proof. vm_compute. repeat split. Qed.

Lemma encode_utf8_app (s t : text) :
  encode_utf8 (s ++ t) = encode_utf8 s ++ encode_utf8 t.
Proof. unfold encode_utf8. apply flat_map_app. Qed.

Lemma encode_utf8_cons (c : uchar) (s : text) :
  encode_utf8 (c :: s) = utf8_char c ++ encode_utf8 s.
Proof. reflexivity. Qed.

(** The digest has 128 bits. *)
Lemma md5_length (msg : bytes) : length (md5 msg) = 16%nat.
Proof. reflexivity. Qed.

Lemma hexlify_length (bs : bytes) : length (hexlify bs) = (2 * length bs)%nat.
Proof.
  unfold hexlify, hex_codes. rewrite length_map.
  induction bs as [| x bs IH]; simpl; [reflexivity | lia].
Qed.

Lemma md5_hexdigest_length (msg : bytes) :
  length (md5_hexdigest msg) = 32%nat.
Proof. unfold md5_hexdigest. rewrite hexlify_length, md5_length. reflexivity. Qed.

(** Hex digits are ASCII: Latin-1 and UTF-8 encode them alike. *)
Lemma encode_latin1_hex_byte (x : byte) (s : text) :
  encode_latin1 (map chr (hex_byte x) ++ s) =
  match encode_latin1 s with
  | Some bs => Some (encode_utf8 (map chr (hex_byte x)) ++ bs)
  | None => None
  end.
Proof. destruct x; simpl; destruct (encode_latin1 s); reflexivity. Qed.

Lemma encode_latin1_hexlify (bs : bytes) :
  encode_latin1 (hexlify bs) = Some (encode_utf8 (hexlify bs)).
Proof.
  unfold hexlify, hex_codes.
  induction bs as [| x bs IH]; [reflexivity |].
  change (flat_map hex_byte (x :: bs))
    with (hex_byte x ++ flat_map hex_byte bs).
  rewrite map_app, encode_latin1_hex_byte, IH.
  rewrite encode_utf8_app. reflexivity.
Qed.

Lemma b_hexlify (bs : bytes) : b (hexlify bs) = Ret (encode_utf8 (hexlify bs)).
Proof. unfold b. rewrite encode_latin1_hexlify. reflexivity. Qed.

(** Test vectors of RFC 1321 and RFC 2202. *)
Example md5_empty :
  md5_hexdigest [] = lit "d41d8cd98f00b204e9800998ecf8427e".
Proof. vm_compute. reflexivity. Qed.

Example md5_abc :
  md5_hexdigest (encode_utf8 (lit "abc")) =
  lit "900150983cd24fb0d6963f7d28e17f72".
Proof. vm_compute. reflexivity. Qed.

Example md5_two_blocks :
  md5_hexdigest (repeat "a"%byte 119) = lit "8a7bd0732ed6a28ce75f6dabc90e1613".
Proof. vm_compute. reflexivity. Qed.

Example md5_padding_block :
  md5_hexdigest (repeat "a"%byte 56) = lit "3b0c8ac703f828b04c6c197006d17218".
Proof. vm_compute. reflexivity. Qed.

Example hmac_md5_rfc2202 :
  hmac_md5_hexdigest (repeat x0b 16) (encode_utf8 (lit "Hi There")) =
  lit "9294727a3638bb1c13f48ef8158bfc9d".
Proof. vm_compute. reflexivity. Qed.

Example hmac_md5_long_key :
  hmac_md5_hexdigest (repeat "k"%byte 70) (encode_utf8 (lit "Hi There")) =
  lit "a31f53d043b63c76b583ce011da63c08".
Proof. vm_compute. reflexivity. Qed.

Lemma VStr_inj (s t : text) : VStr s = VStr t -> s = t.
Proof. congruence. Qed.

(** Two literals with different characters differ. *)
Ltac lit_neq :=
  let H := fresh in
  intros H;
  first [ apply (f_equal (map code)) in H
        | apply VStr_inj in H; apply (f_equal (map code)) in H ];
  vm_compute in H; discriminate.

(** *** String formatting *)

Lemma format_digest (u p : text) :
  py_format (lit "%s:mongo:%s") [VStr u; VStr p] =
  Ret (u ++ lit ":mongo:" ++ p).
Proof. rewrite <- (app_nil_r p) at 2. vm_compute. reflexivity. Qed.

Lemma format_key (nonce : value) (u d : text) :
  py_format (lit "%s%s%s") [nonce; VStr u; VStr d] =
  Ret (py_str nonce ++ u ++ d).
Proof.
  rewrite <- (app_nil_r d) at 2.
  change (py_format (lit "%s%s%s") [nonce; VStr u; VStr d])
    with (Ret (A := text) (py_str nonce ++ u ++ d ++ [])).
  reflexivity.
Qed.

Lemma format_plain (user passwd : value) :
  py_format (chr 0 :: lit "%s" ++ chr 0 :: lit "%s") [user; passwd] =
  Ret (chr 0 :: py_str user ++ chr 0 :: py_str passwd).
Proof.
  rewrite <- (app_nil_r (py_str passwd)).
  change (py_format (chr 0 :: lit "%s" ++ chr 0 :: lit "%s") [user; passwd])
    with (Ret (A := text)
            (chr 0 :: py_str user ++ chr 0 :: py_str passwd ++ [])).
  reflexivity.
Qed.

(** *** The digest engine *)

Lemma password_digest_text (u p : text) :
  p <> [] -> _password_digest (VStr u) (VStr p) = Ret (VStr (passwordDigest u p)).
Proof.
  intros Hp. unfold _password_digest.
  destruct p as [| c p]; [congruence |].
  cbn [is_string negb py_len length Nat.eqb].
  rewrite format_digest. reflexivity.
Qed.

Lemma password_digest_empty_password (username : value) :
  _password_digest username (VStr []) =
  Raise (ValueError (lit "password can't be empty")).
Proof. reflexivity. Qed.

Lemma password_digest_password_type (username password : value) :
  is_string password = false ->
  _password_digest username password =
  Raise (TypeError (lit "password must be an instance of str")).
Proof. intros H. unfold _password_digest. rewrite H. reflexivity. Qed.

Lemma password_digest_username_type (username : value) (p : text) :
  is_string username = false -> p <> [] ->
  _password_digest username (VStr p) =
  Raise (TypeError (lit "password must be an instance of  str")).
Proof.
  intros H Hp. unfold _password_digest. rewrite H.
  destruct p; [congruence | reflexivity].
Qed.

Lemma auth_key_text (nonce : value) (u p : text) :
  p <> [] ->
  _auth_key nonce (VStr u) (VStr p) = Ret (VStr (authKey (py_str nonce) u p)).
Proof.
  intros Hp. unfold _auth_key. rewrite password_digest_text by assumption.
  cbn [py_str]. rewrite format_key. reflexivity.
Qed.

(** C6, as stated, fails: an empty textual username is no malformed
    field for the code.  [_password_digest("", "pw")] returns the digest
    of [":mongo:pw"], so it is false that the function fails whenever
    the username or the password is non-textual or empty. *)
Lemma C6_counterexample :
  _password_digest (VStr []) (str "pw") =
    Ret (str "ad1e2af56b80cdfcd3914ac5caa82e16") /\
  ~ (forall username password : value,
       is_string username = false \/ username = VStr [] \/
       is_string password = false \/ password = VStr [] ->
       exists e, _password_digest username password = Raise e /\
                 InvalidArgument e).
Proof.
  assert (E : _password_digest (VStr []) (str "pw") =
              Ret (str "ad1e2af56b80cdfcd3914ac5caa82e16")).
  { vm_compute. reflexivity. }
  split; [exact E |].
  intros H. destruct (H (VStr []) (str "pw")) as (e & He & _); [auto |].
  rewrite E in He. discriminate.
Qed.

(** C6 (amended): [passwordDigest] is a function of its arguments; for
    every textual username, the empty one included, and every non-empty
    textual password it returns the 32 hex digits of the 128-bit MD5
    digest of the UTF-8 bytes of ["<username>:mongo:<password>"]; and it
    fails with InvalidArgument when the password is not textual
    ([TypeError]), when the password is empty ([ValueError]), and when
    the username is not textual ([TypeError] or, for a malformed
    password, the password's error). *)
Theorem C6_password_digest :
  (forall u p : text, p <> [] ->
     _password_digest (VStr u) (VStr p) =
       Ret (VStr (hexlify (md5 (encode_utf8 u ++ encode_utf8 (lit ":mongo:") ++
                                encode_utf8 p)))) /\
     length (md5 (encode_utf8 (u ++ lit ":mongo:" ++ p))) = 16%nat /\
     length (passwordDigest u p) = 32%nat) /\
  (forall username password : value, is_string password = false ->
     exists msg, _password_digest username password = Raise (TypeError msg)) /\
  (forall username : value,
     exists msg, _password_digest username (VStr []) = Raise (ValueError msg)) /\
  (forall username password : value, is_string username = false ->
     exists e, _password_digest username password = Raise e /\
               InvalidArgument e).
Proof.
  split; [| split; [| split]].
  - intros u p Hp. split; [| split].
    + rewrite password_digest_text by assumption.
      unfold passwordDigest. rewrite !encode_utf8_app. reflexivity.
    + apply md5_length.
    + apply md5_hexdigest_length.
  - intros username password H. eexists.
    apply password_digest_password_type. assumption.
  - intros username. eexists. apply password_digest_empty_password.
  - intros username password H.
    destruct password as [| n | p | x | x];
      try (eexists; split;
           [apply password_digest_password_type; reflexivity | exact I]).
    destruct p as [| c p].
    + eexists. split; [apply password_digest_empty_password | exact I].
    + eexists. split;
        [apply password_digest_username_type; [assumption | discriminate] |
         exact I].
Qed.

(** The digest of the legacy scenario, computed. *)
Lemma C6_password_digest_witness :
  _password_digest (str "bob") (str "pw") =
    Ret (str "701db3f7a5717d0e5047a53a197fff8e") /\
  (exists msg, _password_digest (str "bob") VNone = Raise (TypeError msg)) /\
  (exists e, _password_digest (VInt 7) (str "pw") = Raise e /\
             InvalidArgument e).
Proof.
  destruct C6_password_digest as (H1 & H2 & _ & H4).
  split; [| split].
  - destruct (H1 (lit "bob") (lit "pw")) as (E & _); [discriminate |].
    unfold str. rewrite E. vm_compute. reflexivity.
  - apply H2. reflexivity.
  - apply H4. reflexivity.
Defined.

(** *** The credential builder *)

(** C4: for mechanism GSSAPI the builder yields source ["$external"], no
    password and the properties [{service_name: v}], where [v] is the
    caller's ["gssapiservicename"] or ["mongodb"] when that is unset;
    for MONGODB-X509 it yields source ["$external"], no password and no
    properties; both whatever source and password the caller gave.  For
    every other mechanism source, username and password pass through
    unchanged, with no properties. *)
Theorem C4_build_credentials (source user passwd : value) (extra : dict) :
  (let c := _build_credentials_tuple (str "GSSAPI") source user passwd extra in
   mechanism c = str "GSSAPI" /\ Auth.source c = str "$external" /\
   username c = user /\ password c = VNone /\
   exists props, mechanism_properties c = Some props /\
     dom props = {[ lit "service_name" ]} /\
     (forall name, extra !! lit "gssapiservicename" = Some name ->
        props !! lit "service_name" = Some name) /\
     (extra !! lit "gssapiservicename" = None ->
        props !! lit "service_name" = Some (str "mongodb"))) /\
  (let c :=
     _build_credentials_tuple (str "MONGODB-X509") source user passwd extra in
   mechanism c = str "MONGODB-X509" /\ Auth.source c = str "$external" /\
   username c = user /\ password c = VNone /\
   mechanism_properties c = None) /\
  (forall mech, mech <> str "GSSAPI" -> mech <> str "MONGODB-X509" ->
     _build_credentials_tuple mech source user passwd extra =
       Credential mech source user passwd None).
Proof.
  unfold _build_credentials_tuple. split; [| split].
  - destruct (decide (str "GSSAPI" = str "GSSAPI")) as [_ | N];
      [| congruence].
    cbn -[lit]. repeat (split; [reflexivity |]).
    eexists. split; [reflexivity |]. split; [| split].
    + apply dom_singleton_L.
    + intros name E. rewrite E. apply lookup_singleton_eq.
    + intros E. rewrite E. apply lookup_singleton_eq.
  - destruct (decide (str "MONGODB-X509" = str "GSSAPI")) as [E | _].
    { exfalso. revert E. lit_neq. }
    destruct (decide (str "MONGODB-X509" = str "MONGODB-X509")) as [_ | N];
      [| congruence].
    cbn -[lit]. repeat split.
  - intros mech N1 N2.
    destruct (decide (mech = str "GSSAPI")); [congruence |].
    destruct (decide (mech = str "MONGODB-X509")); [congruence |].
    reflexivity.
Qed.

(** The builder on a GSSAPI request with a service name, on an X.509
    request and on a PLAIN request. *)
Lemma C4_build_credentials_witness :
  _build_credentials_tuple (str "PLAIN") (str "admin") (str "alice")
      (str "s3cret") ∅ =
    Credential (str "PLAIN") (str "admin") (str "alice") (str "s3cret") None /\
  Auth.source (_build_credentials_tuple (str "GSSAPI") (str "admin")
                 (str "alice") (str "s3cret")
                 {[ lit "gssapiservicename" := str "svc" ]}) =
    str "$external".
Proof.
  split.
  - apply (C4_build_credentials (str "admin") (str "alice") (str "s3cret") ∅);
      lit_neq.
  - apply (C4_build_credentials (str "admin") (str "alice") (str "s3cret")
             {[ lit "gssapiservicename" := str "svc" ]}).
Defined.

(** *** The dispatcher *)

Section Dispatch.

Variable K : collaborators.

Lemma auth_map_cram_md5 :
  _AUTH_MAP K !! lit "CRAM-MD5" = Some (_authenticate_cram_md5 K).
Proof. unfold _AUTH_MAP. apply lookup_insert_eq. Qed.

Lemma auth_map_gssapi :
  _AUTH_MAP K !! lit "GSSAPI" = Some (_authenticate_gssapi K).
Proof.
  unfold _AUTH_MAP. rewrite lookup_insert_ne by lit_neq.
  apply lookup_insert_eq.
Qed.

Lemma auth_map_mongo_cr :
  _AUTH_MAP K !! lit "MONGODB-CR" = Some (_authenticate_mongo_cr K).
Proof.
  unfold _AUTH_MAP. rewrite !lookup_insert_ne by lit_neq.
  apply lookup_insert_eq.
Qed.

Lemma auth_map_x509 :
  _AUTH_MAP K !! lit "MONGODB-X509" = Some (_authenticate_x509 K).
Proof.
  unfold _AUTH_MAP. rewrite !lookup_insert_ne by lit_neq.
  apply lookup_insert_eq.
Qed.

Lemma auth_map_plain :
  _AUTH_MAP K !! lit "PLAIN" = Some (_authenticate_plain K).
Proof.
  unfold _AUTH_MAP. rewrite !lookup_insert_ne by lit_neq.
  apply lookup_insert_eq.
Qed.

Lemma auth_map_dom : dom (_AUTH_MAP K) = five_mechanisms.
Proof.
  unfold _AUTH_MAP, five_mechanisms.
  rewrite !dom_insert_L, dom_empty_L. set_solver.
Qed.

(** A mechanism other than GSSAPI passes the availability check and
    goes to the authenticator the map holds for it. *)
Lemma authenticate_dispatch (credentials : MongoCredential)
    (sock : sock_info) (s : text) (f : authenticator) (h : history) :
  mechanism credentials = VStr s -> s <> lit "GSSAPI" ->
  _AUTH_MAP K !! s = Some f ->
  authenticate K credentials sock h = f credentials sock h.
Proof.
  intros Hm Hs Hf. unfold authenticate. rewrite Hm.
  destruct (decide (VStr s = str "GSSAPI")) as [E | _].
  { exfalso. apply VStr_inj in E. contradiction. }
  cbv beta iota delta [bind ret auth_map_get]. rewrite Hf. reflexivity.
Qed.

(** With the [kerberos] module present, GSSAPI goes to its
    authenticator. *)
Lemma authenticate_dispatch_gssapi (credentials : MongoCredential)
    (sock : sock_info) (h : history) :
  mechanism credentials = str "GSSAPI" -> HAVE_KERBEROS K = true ->
  authenticate K credentials sock h = _authenticate_gssapi K credentials sock h.
Proof.
  intros Hm Hk. unfold authenticate. rewrite Hm, Hk.
  destruct (decide (str "GSSAPI" = str "GSSAPI")) as [_ | N]; [| congruence].
  cbv beta iota delta [bind ret auth_map_get str negb].
  rewrite auth_map_gssapi. reflexivity.
Qed.

End Dispatch.

(** C9, as stated, fails: the advertised set [MECHANISMS] has four
    names; CRAM-MD5, a member of the five-member enumeration and a key
    of the dispatch map, is not advertised. *)
Lemma C9_counterexample :
  (lit "CRAM-MD5" ∈ five_mechanisms) /\ (lit "CRAM-MD5" ∉ MECHANISMS) /\
  MECHANISMS <> five_mechanisms.
Proof.
  assert (Hin : lit "CRAM-MD5" ∈ five_mechanisms).
  { apply (bool_decide_eq_true_1 _). vm_compute. reflexivity. }
  assert (Hout : lit "CRAM-MD5" ∉ MECHANISMS).
  { apply (bool_decide_eq_false_1 _). vm_compute. reflexivity. }
  split; [exact Hin | split; [exact Hout |]].
  intros E. rewrite E in Hout. contradiction.
Qed.

(** C9 (amended): the advertised set [MECHANISMS] is the four-member
    set {GSSAPI, MONGODB-CR, MONGODB-X509, PLAIN}, the five-member
    enumeration without CRAM-MD5; the keys of the dispatch map are
    exactly the five names {GSSAPI, MONGODB-CR, MONGODB-X509, PLAIN,
    CRAM-MD5}, and for every mechanism of these five, so for every
    advertised one, the dispatcher's lookup finds an authenticator. *)
Theorem C9_mechanisms (K : collaborators) :
  MECHANISMS = five_mechanisms ∖ {[ lit "CRAM-MD5" ]} /\
  size MECHANISMS = 4%nat /\
  size five_mechanisms = 5%nat /\
  dom (_AUTH_MAP K) = five_mechanisms /\
  (MECHANISMS ⊆ dom (_AUTH_MAP K)) /\
  (forall m : text, m ∈ five_mechanisms ->
     is_Some (auth_map_get K (VStr m))).
Proof.
  assert (E : MECHANISMS = five_mechanisms ∖ {[ lit "CRAM-MD5" ]}).
  { apply (bool_decide_eq_true_1 _). vm_compute. reflexivity. }
  split; [exact E |].
  split; [vm_compute; reflexivity |].
  split; [vm_compute; reflexivity |].
  split; [apply auth_map_dom |].
  split.
  - rewrite auth_map_dom, E. apply subseteq_difference_l. reflexivity.
  - intros m Hm. cbn [auth_map_get].
    apply elem_of_dom. rewrite auth_map_dom. exact Hm.
Qed.

(** The lookup finds the authenticators of PLAIN and of CRAM-MD5. *)
Lemma C9_mechanisms_witness :
  is_Some (auth_map_get (Mock.mock true 1 None) (str "PLAIN")) /\
  is_Some (auth_map_get (Mock.mock true 1 None) (str "CRAM-MD5")).
Proof.
  destruct (C9_mechanisms (Mock.mock true 1 None)) as (_ & _ & _ & _ & _ & H).
  split; apply H; apply (bool_decide_eq_true_1 _); vm_compute; reflexivity.
Defined.

(** C10: a credential whose mechanism is none of the five keys of the
    dispatch map gets no authenticator from the lookup, and
    [authenticate] fails with the untyped [TypeError] of calling
    [None], which is neither [ConfigurationError] nor
    [OperationFailure]; nothing has been sent. *)
Theorem C10_unknown_mechanism (K : collaborators)
    (credentials : MongoCredential) (sock : sock_info) (h : history) :
  mechanism credentials ∉ dispatch_keys ->
  auth_map_get K (mechanism credentials) = None /\
  exists e, authenticate K credentials sock h = (Raise e, h) /\
            e = TypeError (lit "'NoneType' object is not callable") /\
            ~ typed_auth_error e.
Proof.
  intros Hm.
  assert (Hg : mechanism credentials <> str "GSSAPI").
  { intros E. apply Hm. rewrite E. unfold dispatch_keys.
    apply list_elem_of_further, list_elem_of_here. }
  assert (Hnone : auth_map_get K (mechanism credentials) = None).
  { destruct (mechanism credentials) as [| n | s | x | x]; try reflexivity.
    cbn [auth_map_get]. apply not_elem_of_dom. rewrite auth_map_dom.
    unfold five_mechanisms. intros Hs. apply Hm. unfold dispatch_keys, str.
    set_unfold. destruct Hs as [[[[-> | ->] | ->] | ->] | ->]; tauto. }
  split; [exact Hnone |].
  eexists. split; [| split; [reflexivity | intros []]].
  unfold authenticate.
  destruct (decide (mechanism credentials = str "GSSAPI")); [contradiction |].
  cbv beta iota delta [bind ret]. rewrite Hnone. reflexivity.
Qed.

(** A credential of the unimplemented mechanism SCRAM-SHA-1. *)
Lemma C10_unknown_mechanism_witness :
  exists e,
    authenticate (Mock.mock true 1 None)
      (Credential (str "SCRAM-SHA-1") (str "admin") (str "alice")
                  (str "s3cret") None) Mock.sock [] = (Raise e, []) /\
    ~ typed_auth_error e.
Proof.
  destruct (C10_unknown_mechanism (Mock.mock true 1 None)
              (Credential (str "SCRAM-SHA-1") (str "admin") (str "alice")
                          (str "s3cret") None) Mock.sock [])
    as (_ & e & H1 & _ & H2).
  - apply (bool_decide_eq_false_1 _). vm_compute. reflexivity.
  - exists e. split; assumption.
Defined.

(** C2: for a GSSAPI credential, when the [kerberos] module is not
    available, [authenticate] raises [ConfigurationError] at once: the
    history is unchanged, so no command has been sent and no security
    context has been touched. *)
Theorem C2_gssapi_unavailable (K : collaborators)
    (credentials : MongoCredential) (sock : sock_info) (h : history) :
  mechanism credentials = str "GSSAPI" -> HAVE_KERBEROS K = false ->
  exists msg,
    authenticate K credentials sock h = (Raise (ConfigurationError msg), h).
Proof.
  intros Hm Hk. unfold authenticate. rewrite Hm, Hk.
  destruct (decide (str "GSSAPI" = str "GSSAPI")) as [_ | N]; [| congruence].
  eexists. reflexivity.
Qed.

(** A GSSAPI credential from the builder, on a runtime without
    [kerberos]: nothing is sent. *)
Lemma C2_gssapi_unavailable_witness :
  exists msg,
    run (authenticate (Mock.mock false 1 None) Mock.gssapi_credential
           Mock.sock) = (Raise (ConfigurationError msg), []).
Proof.
  apply (C2_gssapi_unavailable (Mock.mock false 1 None)
           Mock.gssapi_credential Mock.sock []); reflexivity.
Defined.

(** *** PLAIN *)

Lemma utf8_nul : utf8_char (chr 0) = [x00].
Proof. reflexivity. Qed.

Lemma plain_run (K : collaborators) (sock : sock_info)
    (mech src user passwd : value) (mp : option dict) (h : history) :
  let cmd := saslStart "PLAIN"
               (VBinary ([x00] ++ encode_utf8 (py_str user) ++
                         [x00] ++ encode_utf8 (py_str passwd))) in
  _authenticate_plain K (Credential mech src user passwd mp) sock h =
    (dropped (cmd_func K h sock src cmd), h ++ [Command sock src cmd]).
Proof.
  unfold _authenticate_plain.
  cbv beta iota zeta delta [bind lift send call ret source username password].
  rewrite format_plain.
  rewrite encode_utf8_cons, encode_utf8_app, encode_utf8_cons, utf8_nul.
  cbv beta iota zeta delta [saslStart str].
  destruct (cmd_func K h sock src _); reflexivity.
Qed.

(** C5: for every PLAIN credential the authenticator sends exactly one
    command, against [credential.source]: [saslStart] with mechanism
    ["PLAIN"], [autoAuthorize] 1 and the payload NUL, the UTF-8 bytes
    of the username, NUL, the UTF-8 bytes of the password, whatever
    characters they hold (a field that is no text enters as [str] of
    it).  No second command follows, and the reply is not inspected:
    the run succeeds when the command returns and fails with the
    command's own error otherwise. *)
Theorem C5_plain (K : collaborators) (sock : sock_info)
    (src user passwd : value) (mp : option dict) (h : history) :
  let credentials := Credential (str "PLAIN") src user passwd mp in
  let payload := [x00] ++ encode_utf8 (py_str user) ++
                 [x00] ++ encode_utf8 (py_str passwd) in
  let cmd := [(lit "saslStart", VInt 1); (lit "mechanism", str "PLAIN");
              (lit "payload", VBinary payload);
              (lit "autoAuthorize", VInt 1)] in
  (forall u p : text, user = VStr u -> passwd = VStr p ->
     payload = [x00] ++ encode_utf8 u ++ [x00] ++ encode_utf8 p /\
     payload = encode_utf8 (chr 0 :: u ++ chr 0 :: p)) /\
  authenticate K credentials sock h =
    (dropped (cmd_func K h sock src cmd), h ++ [Command sock src cmd]) /\
  _authenticate_plain K credentials sock h =
    (dropped (cmd_func K h sock src cmd), h ++ [Command sock src cmd]).
Proof.
  intros credentials payload cmd. split; [| split].
  - intros u p -> ->. split; [reflexivity |]. unfold payload.
    rewrite encode_utf8_cons, encode_utf8_app, encode_utf8_cons, utf8_nul.
    reflexivity.
  - rewrite (authenticate_dispatch K credentials sock (lit "PLAIN")
               (_authenticate_plain K) h);
      [apply plain_run | reflexivity | lit_neq | apply auth_map_plain].
  - apply plain_run.
Qed.

(** The PLAIN scenario of the specification, by the theorem: one
    command with payload [\x00alice\x00s3cret]. *)
Lemma C5_plain_witness :
  run (authenticate (Mock.mock true 1 None)
         (Credential (str "PLAIN") (str "admin") (str "alice") (str "s3cret")
                     None) Mock.sock) =
  (Ret tt,
   [Command Mock.sock (str "admin")
      (saslStart "PLAIN"
         (VBinary ([x00] ++ encode_utf8 (lit "alice") ++
                   [x00] ++ encode_utf8 (lit "s3cret"))))]).
Proof.
  apply (C5_plain (Mock.mock true 1 None) Mock.sock (str "admin")
           (str "alice") (str "s3cret") None []).
Defined.

(** *** CRAM-MD5 *)

Ltac monad_step :=
  cbv beta iota zeta delta
    [bind lift send call ret raise source username password mechanism
     mechanism_properties py_encode_utf8 getitem].

Lemma utf8_space : encode_utf8 (lit " ") = [" "%byte].
Proof. reflexivity. Qed.

Lemma cram_md5_run (K : collaborators) (sock : sock_info) (src : value)
    (u p : text) (mech : value) (mp : option dict) (h : history)
    (resp : dict) (challenge cid : value) (c : bytes) :
  p <> [] ->
  let cmd1 := saslStart "CRAM-MD5" (VBinary []) in
  cmd_func K h sock src cmd1 = Ret resp ->
  resp !! lit "payload" = Some challenge ->
  bytes_like challenge = Ret c ->
  resp !! lit "conversationId" = Some cid ->
  let mac := hmac_md5_hexdigest (encode_utf8 (passwordDigest u p)) c in
  let cmd2 := saslContinue cid (VBinary (encode_utf8 (u ++ lit " " ++ mac))) in
  let h1 := h ++ [Command sock src cmd1] in
  _authenticate_cram_md5 K (Credential mech src (VStr u) (VStr p) mp) sock h =
    (dropped (cmd_func K h1 sock src cmd2), h1 ++ [Command sock src cmd2]).
Proof.
  intros Hp cmd1 Hcmd Hpay Hc Hcid mac cmd2 h1.
  unfold _authenticate_cram_md5. monad_step.
  rewrite (password_digest_text u p Hp).
  fold (saslStart "CRAM-MD5" (VBinary [])). fold cmd1.
  rewrite Hcmd. monad_step. rewrite Hpay, Hc, Hcid.
  unfold hmac_md5_hexdigest. rewrite b_hexlify.
  fold (hmac_md5_hexdigest (encode_utf8 (passwordDigest u p)) c). fold mac.
  replace (encode_utf8 u ++ [" "%byte] ++ encode_utf8 mac)
    with (encode_utf8 (u ++ lit " " ++ mac))
    by (rewrite !encode_utf8_app, utf8_space; reflexivity).
  fold (saslContinue cid (VBinary (encode_utf8 (u ++ lit " " ++ mac)))).
  fold cmd2. fold h1.
  destruct (cmd_func K h1 sock src cmd2); reflexivity.
Qed.

(** C7: for every CRAM-MD5 credential with a textual username and a
    non-empty textual password, against [credential.source]: the first
    command is [saslStart] with mechanism ["CRAM-MD5"], empty payload
    and [autoAuthorize] 1; when the server answers it with a challenge
    payload and a [conversationId], the second and last command is
    [saslContinue] with the same [conversationId] and the payload
    username, space, hex HMAC-MD5 of the challenge keyed by
    [passwordDigest(username, password)]. *)
Theorem C7_cram_md5 (K : collaborators) (sock : sock_info) (src : value)
    (u p : text) (mp : option dict) (h : history)
    (resp : dict) (challenge cid : value) (c : bytes) :
  let credentials := Credential (str "CRAM-MD5") src (VStr u) (VStr p) mp in
  let cmd1 := [(lit "saslStart", VInt 1); (lit "mechanism", str "CRAM-MD5");
               (lit "payload", VBinary []); (lit "autoAuthorize", VInt 1)] in
  p <> [] ->
  cmd_func K h sock src cmd1 = Ret resp ->
  resp !! lit "payload" = Some challenge ->
  bytes_like challenge = Ret c ->
  resp !! lit "conversationId" = Some cid ->
  let key := encode_utf8 (passwordDigest u p) in
  let mac := hexlify (hmac_md5 key c) in
  let cmd2 := [(lit "saslContinue", VInt 1); (lit "conversationId", cid);
               (lit "payload", VBinary (encode_utf8 (u ++ lit " " ++ mac)))] in
  let h1 := h ++ [Command sock src cmd1] in
  _password_digest (VStr u) (VStr p) = Ret (VStr (passwordDigest u p)) /\
  authenticate K credentials sock h =
    (dropped (cmd_func K h1 sock src cmd2), h1 ++ [Command sock src cmd2]).
Proof.
  intros credentials cmd1 Hp Hcmd Hpay Hc Hcid key mac cmd2 h1.
  split; [apply password_digest_text; assumption |].
  rewrite (authenticate_dispatch K credentials sock (lit "CRAM-MD5")
             (_authenticate_cram_md5 K) h);
    [| reflexivity | lit_neq | apply auth_map_cram_md5].
  apply (cram_md5_run K sock src u p (str "CRAM-MD5") mp h resp challenge
           cid c); assumption.
Qed.

(** The CRAM-MD5 scenario of the specification: challenge
    [b"<1896.6969@mail>"], conversation 1, user ["user"], password
    ["pencil"]. *)
Lemma C7_cram_md5_witness :
  run (authenticate (Mock.mock true 1 None)
         (Credential (str "CRAM-MD5") (str "admin") (str "user")
                     (str "pencil") None) Mock.sock) =
  (Ret tt,
   [Command Mock.sock (str "admin") (saslStart "CRAM-MD5" (VBinary []));
    Command Mock.sock (str "admin")
      (saslContinue (VInt 1)
         (VBinary (encode_utf8
                     (lit "user 9bc8cbe6255adf5865ab52344ef1586b"))))]).
Proof.
  destruct (C7_cram_md5 (Mock.mock true 1 None) Mock.sock (str "admin")
              (lit "user") (lit "pencil") None [] Mock.reply
              (VBinary Mock.challenge) (VInt 1) Mock.challenge)
    as [_ E];
    [discriminate | reflexivity | reflexivity | reflexivity | reflexivity |].
  refine (eq_trans E _). vm_compute. reflexivity.
Defined.

(** *** MONGODB-CR *)

Lemma mongo_cr_run (K : collaborators) (sock : sock_info) (src : value)
    (u p : text) (mech : value) (mp : option dict) (h : history)
    (resp : dict) (nonce : value) :
  p <> [] ->
  let cmd1 := [(lit "getnonce", VInt 1)] in
  cmd_func K h sock src cmd1 = Ret resp ->
  resp !! lit "nonce" = Some nonce ->
  let cmd2 := [(lit "authenticate", VInt 1); (lit "user", VStr u);
               (lit "nonce", nonce);
               (lit "key", VStr (authKey (py_str nonce) u p))] in
  let h1 := h ++ [Command sock src cmd1] in
  _authenticate_mongo_cr K (Credential mech src (VStr u) (VStr p) mp) sock h =
    (dropped (cmd_func K h1 sock src cmd2), h1 ++ [Command sock src cmd2]).
Proof.
  intros Hp cmd1 Hcmd Hnonce cmd2 h1.
  unfold _authenticate_mongo_cr. monad_step.
  fold cmd1. rewrite Hcmd. monad_step. rewrite Hnonce.
  rewrite (auth_key_text nonce u p Hp).
  fold cmd2. fold h1.
  destruct (cmd_func K h1 sock src cmd2); reflexivity.
Qed.

(** C8: for every MONGODB-CR credential with a textual username and a
    non-empty textual password, against [credential.source]: the first
    command is [{getnonce: 1}]; when the server answers it with a
    nonce, the second and last command is [authenticate] with the
    user, that nonce and the key [authKey(nonce, username, password)],
    the hex MD5 digest of nonce, username and
    [passwordDigest(username, password)] put together. *)
Theorem C8_mongo_cr (K : collaborators) (sock : sock_info) (src : value)
    (u p : text) (mp : option dict) (h : history)
    (resp : dict) (nonce : value) :
  let credentials := Credential (str "MONGODB-CR") src (VStr u) (VStr p) mp in
  let cmd1 := [(lit "getnonce", VInt 1)] in
  p <> [] ->
  cmd_func K h sock src cmd1 = Ret resp ->
  resp !! lit "nonce" = Some nonce ->
  let key :=
    hexlify (md5 (encode_utf8 (py_str nonce) ++ encode_utf8 u ++
                  encode_utf8 (passwordDigest u p))) in
  let cmd2 := [(lit "authenticate", VInt 1); (lit "user", VStr u);
               (lit "nonce", nonce); (lit "key", VStr key)] in
  let h1 := h ++ [Command sock src cmd1] in
  _auth_key nonce (VStr u) (VStr p) = Ret (VStr key) /\
  authenticate K credentials sock h =
    (dropped (cmd_func K h1 sock src cmd2), h1 ++ [Command sock src cmd2]).
Proof.
  intros credentials cmd1 Hp Hcmd Hnonce key cmd2 h1.
  assert (Ekey : key = authKey (py_str nonce) u p).
  { unfold key, authKey. rewrite !encode_utf8_app. reflexivity. }
  split.
  - rewrite Ekey. apply auth_key_text. assumption.
  - rewrite (authenticate_dispatch K credentials sock (lit "MONGODB-CR")
               (_authenticate_mongo_cr K) h);
      [| reflexivity | lit_neq | apply auth_map_mongo_cr].
    unfold cmd2. rewrite Ekey.
    apply (mongo_cr_run K sock src u p (str "MONGODB-CR") mp h resp nonce);
      assumption.
Qed.

(** The legacy scenario of the specification: nonce ["abc123"], user
    ["bob"], password ["pw"]. *)
Lemma C8_mongo_cr_witness :
  run (authenticate (Mock.mock true 1 None)
         (Credential (str "MONGODB-CR") (str "admin") (str "bob")
                     (str "pw") None) Mock.sock) =
  (Ret tt,
   [Command Mock.sock (str "admin") [(lit "getnonce", VInt 1)];
    Command Mock.sock (str "admin")
      [(lit "authenticate", VInt 1); (lit "user", str "bob");
       (lit "nonce", str "abc123");
       (lit "key", str "c309bc84ad5a9cb25450105cfd5a49c1")]]).
Proof.
  destruct (C8_mongo_cr (Mock.mock true 1 None) Mock.sock (str "admin")
              (lit "bob") (lit "pw") None [] Mock.reply (str "abc123"))
    as [_ E]; [discriminate | reflexivity | reflexivity |].
  refine (eq_trans E _). vm_compute. reflexivity.
Defined.

(** *** Histories *)

Lemma count_app (kind : event -> bool) (xs ys : history) :
  count kind (xs ++ ys) = (count kind xs + count kind ys)%nat.
Proof. unfold count. rewrite List.filter_app, length_app. reflexivity. Qed.

Section Emits.

Context {A B : Type} (kind : event -> bool).

Lemma emits_mono (a n : nat) (m : M A) :
  emits kind a m -> (a <= n)%nat -> emits kind n m.
Proof.
  intros H Hle h. destruct (H h) as (evs & E & Hc).
  exists evs. split; [exact E | lia].
Qed.

Lemma emits_ret (n : nat) (a : A) : emits kind n (ret a).
Proof. intros h. exists []. rewrite app_nil_r. split; [reflexivity | apply Nat.le_0_l]. Qed.

Lemma emits_raise (n : nat) (e : exn) : emits kind n (raise (A := A) e).
Proof. intros h. exists []. rewrite app_nil_r. split; [reflexivity | apply Nat.le_0_l]. Qed.

Lemma emits_lift (n : nat) (r : result A) : emits kind n (lift r).
Proof. intros h. exists []. rewrite app_nil_r. split; [reflexivity | apply Nat.le_0_l]. Qed.

Lemma emits_call (n : nat) (ev : event) (answer : history -> result A) :
  (count kind [ev] <= n)%nat -> emits kind n (call ev answer).
Proof. intros H h. exists [ev]. split; [reflexivity | exact H]. Qed.

Lemma emits_bind (a b n : nat) (m : M A) (k : A -> M B) :
  emits kind a m -> (forall x, emits kind b (k x)) -> (a + b <= n)%nat ->
  emits kind n (bind m k).
Proof.
  intros Hm Hk Hle h. unfold bind.
  destruct (Hm h) as (evs & E & Hc).
  destruct (m h) as [[x | e] h1]; simpl in E; subst h1.
  - destruct (Hk x (h ++ evs)) as (evs' & E' & Hc').
    exists (evs ++ evs'). rewrite E', app_assoc, count_app.
    split; [reflexivity | lia].
  - exists evs. split; [reflexivity | lia].
Qed.

Lemma emits_try_finally (a b n : nat) (body : M A) (final : M B) :
  emits kind a body -> emits kind b final -> (a + b <= n)%nat ->
  emits kind n (try_finally body final).
Proof.
  intros Hm Hf Hle h. unfold try_finally.
  destruct (Hm h) as (evs & E & Hc).
  destruct (body h) as [r h1]; simpl in E; subst h1.
  destruct (Hf (h ++ evs)) as (evs' & E' & Hc').
  destruct (final (h ++ evs)) as [[x | e] h2]; simpl in E'; subst h2;
    exists (evs ++ evs'); rewrite app_assoc, count_app;
    (split; [reflexivity | lia]).
Qed.

Lemma emits_except (n : nat) (body : M A) (handler : text -> M A) :
  emits kind n body -> (forall msg, emits kind 0 (handler msg)) ->
  emits kind n (except_KrbError body handler).
Proof.
  intros Hm Hh h. unfold except_KrbError.
  destruct (Hm h) as (evs & E & Hc).
  destruct (body h) as [[x | e] h1]; simpl in E; subst h1;
    try (exists evs; split; [reflexivity | exact Hc]).
  destruct e; try (exists evs; split; [reflexivity | exact Hc]).
  destruct (Hh msg (h ++ evs)) as (evs' & E' & Hc').
  exists (evs ++ evs'). rewrite E', app_assoc, count_app.
  split; [reflexivity | lia].
Qed.

End Emits.

Lemma emits_bind_silent {A B} (kind : event -> bool) (n : nat)
    (m : M A) (k : A -> M B) :
  emits kind 0 m -> (forall x, emits kind n (k x)) -> emits kind n (bind m k).
Proof. intros Hm Hk. apply (emits_bind kind 0 n n m k Hm Hk). lia. Qed.

Lemma emits_bind_one {A B} (kind : event -> bool) (n : nat)
    (m : M A) (k : A -> M B) :
  emits kind 1 m -> (forall x, emits kind n (k x)) ->
  emits kind (S n) (bind m k).
Proof. intros Hm Hk. apply (emits_bind kind 1 n (S n) m k Hm Hk). lia. Qed.

Ltac emits_head :=
  first [ apply emits_lift | apply emits_ret | apply emits_raise
        | apply emits_call; unfold count; simpl; lia ].

Ltac emits_chain :=
  repeat first
    [ emits_head
    | apply emits_bind_silent; [solve [emits_head] | intros ?]
    | apply emits_bind_one; [solve [emits_head] | intros ?]
    | match goal with
      | |- emits _ _ (if ?c then _ else _) => destruct c
      | |- emits _ _ (match ?x with Some _ => _ | None => _ end) => destruct x
      | |- emits _ _ (let '(_, _) := ?x in _) => destruct x
      end ].

(** *** GSSAPI: the negotiate loop *)

Section Negotiate.

Variable K : collaborators.
Variable sock : sock_info.
Variable ctx : context.

Ltac unfold_calls :=
  unfold kerberos_authGSSClientInit, kerberos_authGSSClientStep,
    kerberos_authGSSClientResponse, kerberos_authGSSClientUnwrap,
    kerberos_authGSSClientWrap, kerberos_authGSSClientClean, send.


Lemma negotiate_commands (n : nat) (response : dict) :
  emits is_command n (negotiate K n sock ctx response).
Proof.
  revert response. induction n as [| n IH]; intros response;
    cbn [negotiate]; unfold_calls; emits_chain. apply IH.
Qed.

Lemma negotiate_no_clean (n : nat) (response : dict) :
  emits is_clean 0 (negotiate K n sock ctx response).
Proof.
  revert response. induction n as [| n IH]; intros response;
    cbn [negotiate]; unfold_calls; emits_chain. apply IH.
Qed.

End Negotiate.

Section NegotiateRuns.

Variable K : collaborators.
Variable sock : sock_info.
Variable ctx : context.




End NegotiateRuns.

(** *** GSSAPI: the authenticator *)

Ltac unfold_calls :=
  unfold kerberos_authGSSClientInit, kerberos_authGSSClientStep,
    kerberos_authGSSClientResponse, kerberos_authGSSClientUnwrap,
    kerberos_authGSSClientWrap, kerberos_authGSSClientClean, send.

Section Gssapi.

Variable K : collaborators.

Lemma handshake_commands (user : value) (sock : sock_info) (ctx : context) :
  emits is_command 12 (gssapi_handshake K user sock ctx).
Proof.
  unfold gssapi_handshake. unfold_calls.
  apply emits_bind_silent; [emits_head | intros first].
  destruct (negb (first =? 0)%Z); [emits_head |].
  apply emits_bind_silent; [emits_head | intros payload].
  apply emits_bind_one; [emits_head | intros response].
  apply (emits_bind is_command 10 1 11);
    [apply negotiate_commands | intros response' | lia].
  emits_chain.
Qed.


Lemma handshake_no_clean (user : value) (sock : sock_info) (ctx : context) :
  emits is_clean 0 (gssapi_handshake K user sock ctx).
Proof.
  unfold gssapi_handshake. unfold_calls.
  apply emits_bind_silent; [emits_head | intros first].
  destruct (negb (first =? 0)%Z); [emits_head |].
  apply emits_bind_silent; [emits_head | intros payload].
  apply emits_bind_silent; [emits_head | intros response].
  apply emits_bind_silent; [apply negotiate_no_clean | intros response'].
  emits_chain.
Qed.

Lemma gssapi_commands (credentials : MongoCredential) (sock : sock_info) :
  emits is_command 12 (_authenticate_gssapi K credentials sock).
Proof.
  unfold _authenticate_gssapi.
  destruct (negb (HAVE_KERBEROS K)); [emits_head |].
  apply emits_except; [| intros msg; emits_head].
  apply emits_bind_silent; [destruct (mechanism_properties credentials);
                            emits_head | intros gsn].
  apply emits_bind_silent; [emits_head | intros prefix].
  apply emits_bind_silent; [emits_head | intros service].
  unfold_calls. apply emits_bind_silent; [emits_head | intros [result ctx]].
  destruct (negb (result =? AUTH_GSS_COMPLETE)%Z); [emits_head |].
  apply (emits_try_finally is_command 12 0 12);
    [apply handshake_commands | emits_head | lia].
Qed.


Lemma py_add_error (a b : value) (e : exn) :
  py_add a b = Raise e -> exists msg, e = TypeError msg.
Proof.
  destruct a, b; cbn [py_add]; intros H; try discriminate;
    injection H as <-; eexists; reflexivity.
Qed.

Lemma service_principal_error (credentials : MongoCredential)
    (sock : sock_info) (e : exn) :
  service_principal credentials sock = Raise e ->
  translated (Raise (A := unit) e) = Raise e.
Proof.
  unfold service_principal, getitem.
  destruct (mechanism_properties credentials) as [props |];
    [| intros H; injection H as <-; reflexivity].
  destruct (props !! lit "service_name") as [gsn |];
    [| intros H; injection H as <-; reflexivity].
  destruct (py_add gsn (str "@")) as [prefix | e1] eqn:E1.
  - intros H. apply py_add_error in H as [msg ->]. reflexivity.
  - intros H. injection H as <-.
    apply py_add_error in E1 as [msg ->]. reflexivity.
Qed.

(** The authenticator, by the outcome of building the principal and of
    initialising the context. *)
Lemma gssapi_unfold (credentials : MongoCredential) (sock : sock_info)
    (h : history) :
  HAVE_KERBEROS K = true ->
  _authenticate_gssapi K credentials sock h =
    match service_principal credentials sock with
    | Raise e => (Raise e, h)
    | Ret service =>
        let h1 := h ++ [GSSInit service GSS_C_MUTUAL_FLAG] in
        match authGSSClientInit K h service GSS_C_MUTUAL_FLAG with
        | Raise e => (translated (Raise e), h1)
        | Ret (result, ctx) =>
            if (result =? AUTH_GSS_COMPLETE)%Z then
              match try_finally
                      (gssapi_handshake K (username credentials) sock ctx)
                      (kerberos_authGSSClientClean K ctx) h1 with
              | (r, h2) => (translated r, h2)
              end
            else
              (Raise (OperationFailure
                        (lit "Kerberos context failed to initialize.")), h1)
        end
    end.
Proof.
  intros Hk.
  destruct (service_principal credentials sock) as [service | e] eqn:E.
  - revert E.
    unfold service_principal, _authenticate_gssapi, except_KrbError.
    rewrite Hk. cbn [negb].
    unfold kerberos_authGSSClientInit.
    cbv beta iota zeta delta [bind lift call raise getitem].
    destruct (mechanism_properties credentials) as [props |];
      [| discriminate].
    destruct (props !! lit "service_name") as [gsn |]; [| discriminate].
    destruct (py_add gsn (str "@")) as [prefix |]; [| discriminate].
    intros ->.
    destruct (authGSSClientInit K h service GSS_C_MUTUAL_FLAG)
      as [[result ctx] | e].
    + destruct (result =? AUTH_GSS_COMPLETE)%Z; cbn [negb]; [| reflexivity].
      destruct (try_finally _ _ _) as [[x | e] h2]; [reflexivity |].
      destruct e; reflexivity.
    + destruct e; reflexivity.
  - pose proof (service_principal_error credentials sock e E) as T.
    revert E T.
    unfold service_principal, _authenticate_gssapi, except_KrbError.
    rewrite Hk. cbn [negb].
    cbv beta iota zeta delta [bind lift call raise getitem].
    destruct (mechanism_properties credentials) as [props |].
    + destruct (props !! lit "service_name") as [gsn |].
      * destruct (py_add gsn (str "@")) as [prefix |].
        -- intros -> T. destruct e; try reflexivity; discriminate.
        -- intros E T. injection E as E. rewrite E.
           destruct e; try reflexivity; discriminate.
      * intros E T. injection E as E. rewrite E.
        destruct e; try reflexivity; discriminate.
    + intros E T. injection E as E. rewrite E.
      destruct e; try reflexivity; discriminate.
Qed.

End Gssapi.

(** C3, as stated, fails on the path it names: when
    [authGSSClientInit] returns a context with a non-complete result,
    the authenticator raises before it enters the [try ... finally]
    that releases the context, and [authGSSClientClean] is not
    called. *)
Lemma C3_counterexample :
  authGSSClientInit (Mock.mock true 0 None) []
    (str "mongodb@db.example.com") GSS_C_MUTUAL_FLAG = Ret (0%Z, 7) /\
  run (_authenticate_gssapi (Mock.mock true 0 None) Mock.gssapi_credential
         Mock.sock) =
    (Raise (OperationFailure (lit "Kerberos context failed to initialize.")),
     [GSSInit (str "mongodb@db.example.com") GSS_C_MUTUAL_FLAG]) /\
  ~ In (GSSClean 7)
       (snd (run (_authenticate_gssapi (Mock.mock true 0 None)
                    Mock.gssapi_credential Mock.sock))).
Proof.
  assert (E : run (_authenticate_gssapi (Mock.mock true 0 None)
                     Mock.gssapi_credential Mock.sock) =
              (Raise (OperationFailure
                        (lit "Kerberos context failed to initialize.")),
               [GSSInit (str "mongodb@db.example.com") GSS_C_MUTUAL_FLAG])).
  { vm_compute. reflexivity. }
  split; [reflexivity | split; [exact E |]].
  rewrite E. cbn [snd In]. intros [H | []]. discriminate.
Qed.

(** C3 (amended): in every GSSAPI run (with the [kerberos] module
    present, as the dispatcher requires) in which the initialisation of
    the context returns the complete result, the context is released
    on every exit path, success, fatal error or exception during the
    handshake: [authGSSClientClean] is called on it exactly once, as
    the last action of the run.  A non-complete result of the
    initialisation is fatal ([OperationFailure]) before the handshake
    is entered. *)
Theorem C3_context_released (K : collaborators)
    (credentials : MongoCredential) (sock : sock_info) (h : history)
    (service : value) :
  HAVE_KERBEROS K = true ->
  service_principal credentials sock = Ret service ->
  (forall ctx,
     authGSSClientInit K h service GSS_C_MUTUAL_FLAG =
       Ret (AUTH_GSS_COMPLETE, ctx) ->
     exists r evs,
       _authenticate_gssapi K credentials sock h =
         (r, h ++ [GSSInit service GSS_C_MUTUAL_FLAG] ++ evs ++
             [GSSClean ctx]) /\
       count is_clean evs = 0%nat) /\
  (forall result ctx,
     authGSSClientInit K h service GSS_C_MUTUAL_FLAG = Ret (result, ctx) ->
     result <> AUTH_GSS_COMPLETE ->
     _authenticate_gssapi K credentials sock h =
       (Raise (OperationFailure
                 (lit "Kerberos context failed to initialize.")),
        h ++ [GSSInit service GSS_C_MUTUAL_FLAG])).
Proof.
  intros Hk Hs. split.
  - intros ctx Hinit. rewrite (gssapi_unfold K credentials sock h Hk), Hs.
    cbv zeta. rewrite Hinit.
    rewrite Z.eqb_refl. unfold try_finally.
    destruct (handshake_no_clean K (username credentials) sock ctx
                (h ++ [GSSInit service GSS_C_MUTUAL_FLAG]))
      as (evs & E & Hc).
    destruct (gssapi_handshake K (username credentials) sock ctx _)
      as [r1 h2].
    cbn [snd] in E. subst h2.
    unfold kerberos_authGSSClientClean, call.
    destruct (authGSSClientClean K _ ctx) as [x | e];
      eexists; exists evs; rewrite <- !app_assoc;
      (split; [reflexivity | lia]).
  - intros result ctx Hinit Hne.
    rewrite (gssapi_unfold K credentials sock h Hk), Hs. cbv zeta.
    rewrite Hinit.
    destruct (Z.eqb_spec result AUTH_GSS_COMPLETE); [contradiction |].
    reflexivity.
Qed.

(** A run that fails in the loop, against a pairing that never
    completes: the context 7 is released at the end. *)
Lemma C3_context_released_witness :
  exists r evs,
    run (_authenticate_gssapi (Mock.mock true 1 None) Mock.gssapi_credential
           Mock.sock) =
      (r, [] ++ [GSSInit (str "mongodb@db.example.com") GSS_C_MUTUAL_FLAG] ++
             evs ++ [GSSClean 7]) /\
    count is_clean evs = 0%nat.
Proof.
  apply (C3_context_released (Mock.mock true 1 None) Mock.gssapi_credential
           Mock.sock [] (str "mongodb@db.example.com"));
    vm_compute; reflexivity.
Defined.

(** *** GSSAPI: the loop within a run *)

Section GssapiLoop.

Variable K : collaborators.
Variable sock : sock_info.
Variable ctx : context.







End GssapiLoop.




(** A security library that reports completion at the third iteration:
    the loop stops there, the run finishes the handshake and releases
    the context. *)
Example gssapi_scenario :
  run (authenticate (Mock.mock true 1 (Some 3%nat)) Mock.gssapi_credential
         Mock.sock) =
  (Ret tt,
   [GSSInit (str "mongodb@db.example.com") GSS_C_MUTUAL_FLAG;
    GSSStep 7 []; GSSResponse 7;
    Command Mock.sock (str "$external") (saslStart "GSSAPI" (str "dG9rZW4="));
    GSSStep 7 (py_str (VBinary Mock.challenge)); GSSResponse 7;
    Command Mock.sock (str "$external")
      (saslContinue (VInt 1) (str "dG9rZW4="));
    GSSStep 7 (py_str (VBinary Mock.challenge)); GSSResponse 7;
    Command Mock.sock (str "$external")
      (saslContinue (VInt 1) (str "dG9rZW4="));
    GSSStep 7 (py_str (VBinary Mock.challenge)); GSSResponse 7;
    Command Mock.sock (str "$external")
      (saslContinue (VInt 1) (str "dG9rZW4="));
    GSSUnwrap 7 (py_str (VBinary Mock.challenge)); GSSResponse 7;
    GSSWrap 7 (str "dG9rZW4=") (str "user@EXAMPLE.COM"); GSSResponse 7;
    Command Mock.sock (str "$external")
      (saslContinue (VInt 1) (str "dG9rZW4="));
    GSSClean 7]).
Proof. vm_compute. reflexivity. Qed.

(** Completion at any iteration within the bound ends the run well,
    after that many iterations; completion due only at an eleventh
    iteration is not reached. *)
Example gssapi_completes_within_bound (k : nat) :
  (1 <= k <= 10)%nat ->
  let out := run (authenticate (Mock.mock true 1 (Some k))
                    Mock.gssapi_credential Mock.sock) in
  fst out = Ret tt /\
  count is_step (snd out) = S k /\
  count is_command (snd out) = (k + 2)%nat /\
  last (snd out) = Some (GSSClean 7).
Proof.
  intros [H1 H2].
  do 11 (destruct k as [| k]; [try lia; vm_compute; auto |]). lia.
Qed.

Example gssapi_completes_too_late :
  let out := run (authenticate (Mock.mock true 1 (Some 11%nat))
                    Mock.gssapi_credential Mock.sock) in
  fst out =
    Raise (OperationFailure
             (lit "Kerberos authentication failed to complete.")) /\
  count is_step (snd out) = 11%nat /\
  count is_command (snd out) = 11%nat /\
  last (snd out) = Some (GSSClean 7).
Proof. vm_compute. auto. Qed.

(** The first step must ask for continuation. *)
Example gssapi_first_step_complete :
  run (authenticate (Mock.mock true 1 (Some 0%nat)) Mock.gssapi_credential
         Mock.sock) =
  (Raise (OperationFailure (lit "Unknown kerberos failure in step function.")),
   [GSSInit (str "mongodb@db.example.com") GSS_C_MUTUAL_FLAG;
    GSSStep 7 []; GSSClean 7]).
Proof. vm_compute. reflexivity. Qed.

(* ================================================================== *)
(** ** Further properties of the module *)
(* ================================================================== *)

(** *** MONGODB-X509 *)

Lemma x509_run (K : collaborators) (credentials : MongoCredential)
    (sock : sock_info) (h : history) :
  let query := x509_query (username credentials) in
  _authenticate_x509 K credentials sock h =
    (dropped (cmd_func K h sock (str "$external") query),
     h ++ [Command sock (str "$external") query]).
Proof.
  unfold _authenticate_x509, x509_query.
  cbv beta iota zeta delta [bind send call ret].
  destruct (cmd_func K h sock (str "$external") _); reflexivity.
Qed.

(** X1: for every MONGODB-X509 credential the dispatcher sends exactly
    one command, [authenticate] with mechanism ["MONGODB-X509"] and the
    user, to ["$external"], whatever the source, the password and the
    properties of the credential are; the run succeeds when the command
    returns and fails with the command's error otherwise. *)
Theorem x509_single_command (K : collaborators) (sock : sock_info)
    (src user passwd : value) (mp : option dict) (h : history) :
  let credentials := Credential (str "MONGODB-X509") src user passwd mp in
  let query := [(lit "authenticate", VInt 1);
                (lit "mechanism", str "MONGODB-X509"); (lit "user", user)] in
  authenticate K credentials sock h =
    (dropped (cmd_func K h sock (str "$external") query),
     h ++ [Command sock (str "$external") query]).
Proof.
  intros credentials query.
  rewrite (authenticate_dispatch K credentials sock (lit "MONGODB-X509")
             (_authenticate_x509 K) h);
    [apply x509_run | reflexivity | lit_neq | apply auth_map_x509].
Qed.

(** *** The dispatcher, mechanism by mechanism *)

(** X2: with the [kerberos] module present, [authenticate] is the
    authenticator of the credential's mechanism, for each of the five
    mechanisms: the same result and the same history, nothing before
    and nothing after, so an error of the authenticator reaches the
    caller as it is. *)
Theorem authenticate_is_authenticator (K : collaborators)
    (credentials : MongoCredential) (sock : sock_info) (h : history) :
  HAVE_KERBEROS K = true ->
  (mechanism credentials = str "GSSAPI" ->
   authenticate K credentials sock h =
     _authenticate_gssapi K credentials sock h) /\
  (mechanism credentials = str "PLAIN" ->
   authenticate K credentials sock h =
     _authenticate_plain K credentials sock h) /\
  (mechanism credentials = str "CRAM-MD5" ->
   authenticate K credentials sock h =
     _authenticate_cram_md5 K credentials sock h) /\
  (mechanism credentials = str "MONGODB-X509" ->
   authenticate K credentials sock h =
     _authenticate_x509 K credentials sock h) /\
  (mechanism credentials = str "MONGODB-CR" ->
   authenticate K credentials sock h =
     _authenticate_mongo_cr K credentials sock h).
Proof.
  intros Hk. repeat split; intros Hm.
  - apply authenticate_dispatch_gssapi; assumption.
  - apply (authenticate_dispatch K credentials sock (lit "PLAIN"));
      [exact Hm | lit_neq | apply auth_map_plain].
  - apply (authenticate_dispatch K credentials sock (lit "CRAM-MD5"));
      [exact Hm | lit_neq | apply auth_map_cram_md5].
  - apply (authenticate_dispatch K credentials sock (lit "MONGODB-X509"));
      [exact Hm | lit_neq | apply auth_map_x509].
  - apply (authenticate_dispatch K credentials sock (lit "MONGODB-CR"));
      [exact Hm | lit_neq | apply auth_map_mongo_cr].
Qed.

(** A CRAM-MD5 credential goes to the CRAM-MD5 authenticator. *)
Lemma authenticate_is_authenticator_witness :
  authenticate (Mock.mock true 1 None)
    (Credential (str "CRAM-MD5") (str "admin") (str "user") (str "pencil")
                None) Mock.sock [] =
  _authenticate_cram_md5 (Mock.mock true 1 None)
    (Credential (str "CRAM-MD5") (str "admin") (str "user") (str "pencil")
                None) Mock.sock [].
Proof.
  apply (authenticate_is_authenticator (Mock.mock true 1 None)
           (Credential (str "CRAM-MD5") (str "admin") (str "user")
                       (str "pencil") None) Mock.sock []);
    reflexivity.
Defined.

(** *** The digests *)

Lemma hexlify_hex_digits (bs : bytes) :
  Forall (fun c => is_hex_digit c = true) (hexlify bs).
Proof.
  unfold hexlify, hex_codes.
  induction bs as [| x bs IH]; [constructor |].
  change (flat_map hex_byte (x :: bs))
    with (hex_byte x ++ flat_map hex_byte bs).
  rewrite map_app. apply Forall_app. split; [| exact IH].
  destruct x; repeat constructor.
Qed.

Lemma format_three (x y z : value) :
  py_format (lit "%s%s%s") [x; y; z] = Ret (py_str x ++ py_str y ++ py_str z).
Proof.
  rewrite <- (app_nil_r (py_str z)).
  change (py_format (lit "%s%s%s") [x; y; z])
    with (Ret (A := text) (py_str x ++ py_str y ++ py_str z ++ [])).
  reflexivity.
Qed.

Lemma password_digest_returns (username password v : value) :
  _password_digest username password = Ret v ->
  exists u p, username = VStr u /\ password = VStr p /\ p <> [] /\
              v = VStr (passwordDigest u p).
Proof.
  intros H.
  destruct password as [| n | p | x | x]; try discriminate.
  destruct p as [| c p]; [discriminate |].
  destruct username as [| n | u | x | x]; try discriminate.
  rewrite password_digest_text in H by discriminate.
  injection H as <-. exists u, (c :: p). repeat split. discriminate.
Qed.

(** X3: whenever [_password_digest] or [_auth_key] returns, the value
    is a text of exactly 32 lower-case hexadecimal digits. *)
Theorem digests_are_hex (nonce username password v : value) :
  _password_digest username password = Ret v \/
  _auth_key nonce username password = Ret v ->
  exists d : text, v = VStr d /\ length d = 32%nat /\
                   Forall (fun c => is_hex_digit c = true) d.
Proof.
  intros [H | H].
  - apply password_digest_returns in H as (u & p & _ & _ & _ & ->).
    eexists. split; [reflexivity |]. split.
    + apply md5_hexdigest_length.
    + apply hexlify_hex_digits.
  - unfold _auth_key in H.
    destruct (_password_digest username password) as [d | e] eqn:E;
      [| discriminate].
    rewrite format_three in H. injection H as <-.
    eexists. split; [reflexivity |]. split.
    + apply md5_hexdigest_length.
    + apply hexlify_hex_digits.
Qed.

Lemma digests_are_hex_witness :
  exists d : text, str "701db3f7a5717d0e5047a53a197fff8e" = VStr d /\
                   length d = 32%nat /\
                   Forall (fun c => is_hex_digit c = true) d.
Proof.
  apply (digests_are_hex VNone (str "bob") (str "pw")).
  left. vm_compute. reflexivity.
Defined.

Lemma auth_key_raises (nonce username password : value) (e : exn) :
  _auth_key nonce username password = Raise e <->
  _password_digest username password = Raise e.
Proof.
  unfold _auth_key.
  destruct (_password_digest username password) as [d | e'].
  - rewrite format_three. split; discriminate.
  - reflexivity.
Qed.

(** X4: [_auth_key] fails exactly when [_password_digest] fails on the
    same username and password, and with the same error: the nonce is
    never inspected, whatever value it is. *)
Theorem auth_key_fails_as_digest (nonce username password : value) (e : exn) :
  _auth_key nonce username password = Raise e <->
  _password_digest username password = Raise e.
Proof. apply auth_key_raises. Qed.

(** X5: the text that [_password_digest] hashes does not keep the
    username and the password apart: a separator [":mongo:"] inside
    either of them moves the boundary, so the username
    ["<u>:mongo:<x>"] with password [p] has the digest of the username
    [u] with password ["<x>:mongo:<p>"]. *)
Theorem password_digest_boundary (u x p : text) :
  p <> [] ->
  _password_digest (VStr (u ++ lit ":mongo:" ++ x)) (VStr p) =
  _password_digest (VStr u) (VStr (x ++ lit ":mongo:" ++ p)).
Proof.
  intros Hp.
  rewrite !password_digest_text;
    [| destruct x; discriminate | assumption].
  unfold passwordDigest. rewrite <- !app_assoc. reflexivity.
Qed.

Lemma password_digest_boundary_witness :
  _password_digest (str "a:mongo:b") (str "c") =
  _password_digest (str "a") (str "b:mongo:c").
Proof.
  apply (password_digest_boundary (lit "a") (lit "b") (lit "c")).
  discriminate.
Defined.

(** *** PLAIN, without escaping *)

(** X6: the PLAIN payload does not keep the username and the password
    apart either: a NUL inside one of them moves the boundary, so the
    credential with username [u NUL x] and password [p] and the one
    with username [u] and password [x NUL p] make the same run: the
    same command with the same payload. *)
Theorem plain_boundary (K : collaborators) (sock : sock_info)
    (mech src : value) (u x p : text) (mp : option dict) (h : history) :
  _authenticate_plain K
    (Credential mech src (VStr (u ++ chr 0 :: x)) (VStr p) mp) sock h =
  _authenticate_plain K
    (Credential mech src (VStr u) (VStr (x ++ chr 0 :: p)) mp) sock h.
Proof.
  rewrite !plain_run. cbn [py_str].
  replace (encode_utf8 (u ++ chr 0 :: x) ++ [x00] ++ encode_utf8 p)
    with (encode_utf8 u ++ [x00] ++ encode_utf8 (x ++ chr 0 :: p)).
  - reflexivity.
  - rewrite !encode_utf8_app, !encode_utf8_cons, utf8_nul, <- !app_assoc.
    reflexivity.
Qed.

(** *** The builder, again *)

(** X7: building again from the fields of a built credential, with the
    same extra options, gives the same credential: the builder is
    idempotent, for every mechanism. *)
Theorem build_credentials_idempotent
    (mech source user passwd : value) (extra : dict) :
  let c := _build_credentials_tuple mech source user passwd extra in
  _build_credentials_tuple (mechanism c) (Auth.source c) (username c)
    (password c) extra = c.
Proof.
  unfold _build_credentials_tuple.
  destruct (decide (mech = str "GSSAPI")) as [E1 | N1].
  - cbn [mechanism Auth.source username password].
    destruct (decide (mech = str "GSSAPI")); [reflexivity | contradiction].
  - destruct (decide (mech = str "MONGODB-X509")) as [E2 | N2];
      cbn [mechanism Auth.source username password];
      destruct (decide (mech = str "GSSAPI")); try contradiction;
      destruct (decide (mech = str "MONGODB-X509")); try contradiction;
      reflexivity.
Qed.

(** *** CRAM-MD5 and MONGODB-CR off the expected path *)

(** X8: the CRAM-MD5 authenticator validates before it sends: when
    [_password_digest] refuses the username or the password (a field
    that is no text, an empty password), the run fails with that error
    and the history is unchanged, so no command has been sent. *)
Theorem cram_md5_validates_first (K : collaborators)
    (credentials : MongoCredential) (sock : sock_info) (h : history)
    (e : exn) :
  _password_digest (username credentials) (password credentials) = Raise e ->
  _authenticate_cram_md5 K credentials sock h = (Raise e, h).
Proof.
  intros H. unfold _authenticate_cram_md5.
  cbv beta iota zeta delta [bind lift]. rewrite H. reflexivity.
Qed.

Lemma cram_md5_validates_first_witness :
  _authenticate_cram_md5 (Mock.mock true 1 None)
    (Credential (str "CRAM-MD5") (str "admin") (str "user") (str "") None)
    Mock.sock [] =
  (Raise (ValueError (lit "password can't be empty")), []).
Proof.
  apply (cram_md5_validates_first (Mock.mock true 1 None)
           (Credential (str "CRAM-MD5") (str "admin") (str "user") (str "")
                       None) Mock.sock []).
  reflexivity.
Defined.

(** X9: the MONGODB-CR authenticator validates after it has asked for
    the nonce: when the server has answered [getnonce] with a nonce and
    [_password_digest] refuses the username or the password, the run
    fails with that error after exactly one command, [getnonce]; no
    [authenticate] command follows. *)
Theorem mongo_cr_validates_late (K : collaborators)
    (credentials : MongoCredential) (sock : sock_info) (h : history)
    (resp : dict) (nonce : value) (e : exn) :
  let cmd1 := [(lit "getnonce", VInt 1)] in
  cmd_func K h sock (source credentials) cmd1 = Ret resp ->
  resp !! lit "nonce" = Some nonce ->
  _password_digest (username credentials) (password credentials) = Raise e ->
  _authenticate_mongo_cr K credentials sock h =
    (Raise e, h ++ [Command sock (source credentials) cmd1]).
Proof.
  intros cmd1 Hcmd Hnonce H. unfold _authenticate_mongo_cr.
  cbv beta iota zeta delta [bind lift send call getitem].
  fold cmd1. rewrite Hcmd, Hnonce.
  rewrite (proj2 (auth_key_raises nonce _ _ e) H). reflexivity.
Qed.

Lemma mongo_cr_validates_late_witness :
  _authenticate_mongo_cr (Mock.mock true 1 None)
    (Credential (str "MONGODB-CR") (str "admin") (str "bob") (str "") None)
    Mock.sock [] =
  (Raise (ValueError (lit "password can't be empty")),
   [] ++ [Command Mock.sock (str "admin") [(lit "getnonce", VInt 1)]]).
Proof.
  apply (mongo_cr_validates_late (Mock.mock true 1 None)
           (Credential (str "MONGODB-CR") (str "admin") (str "bob") (str "")
                       None) Mock.sock [] Mock.reply (str "abc123"));
    reflexivity.
Defined.

(** X10: a CRAM-MD5 run that does not get a usable challenge stops
    after the one [saslStart] command (textual username, non-empty
    textual password): an error of the command is passed on; a reply
    without ["payload"] gives [KeyError]; a payload that is no byte
    string gives the [TypeError] of the MAC; a reply without
    ["conversationId"] gives [KeyError].  No [saslContinue] is sent on
    any of these paths. *)
Theorem cram_md5_bad_reply (K : collaborators) (sock : sock_info)
    (src : value) (u p : text) (mech : value) (mp : option dict)
    (h : history) :
  p <> [] ->
  let credentials := Credential mech src (VStr u) (VStr p) mp in
  let cmd1 := [(lit "saslStart", VInt 1); (lit "mechanism", str "CRAM-MD5");
               (lit "payload", VBinary []); (lit "autoAuthorize", VInt 1)] in
  let h1 := h ++ [Command sock src cmd1] in
  (forall e, cmd_func K h sock src cmd1 = Raise e ->
     _authenticate_cram_md5 K credentials sock h = (Raise e, h1)) /\
  (forall resp, cmd_func K h sock src cmd1 = Ret resp ->
     resp !! lit "payload" = None ->
     _authenticate_cram_md5 K credentials sock h =
       (Raise (KeyError (lit "payload")), h1)) /\
  (forall resp challenge e, cmd_func K h sock src cmd1 = Ret resp ->
     resp !! lit "payload" = Some challenge ->
     bytes_like challenge = Raise e ->
     _authenticate_cram_md5 K credentials sock h = (Raise e, h1)) /\
  (forall resp challenge c, cmd_func K h sock src cmd1 = Ret resp ->
     resp !! lit "payload" = Some challenge ->
     bytes_like challenge = Ret c ->
     resp !! lit "conversationId" = None ->
     _authenticate_cram_md5 K credentials sock h =
       (Raise (KeyError (lit "conversationId")), h1)).
Proof.
  intros Hp credentials cmd1 h1.
  assert (U : forall r,
             cmd_func K h sock src cmd1 = r ->
             _authenticate_cram_md5 K credentials sock h =
             match r with
             | Raise e => (Raise e, h1)
             | Ret resp =>
                 bind (lift (py_encode_utf8 (VStr (passwordDigest u p))))
                   (fun key =>
                    bind (lift (getitem resp (lit "payload")))
                      (fun payload =>
                       bind (lift (bytes_like payload))
                         (fun msg =>
                          bind (lift (py_encode_utf8 (VStr u)))
                            (fun user =>
                             bind (lift (b (hmac_md5_hexdigest key msg)))
                               (fun digest =>
                                bind (lift (getitem resp
                                              (lit "conversationId")))
                                  (fun cid =>
                                   bind (send K sock src
                                           [(lit "saslContinue", VInt 1);
                                            (lit "conversationId", cid);
                                            (lit "payload",
                                             VBinary (user ++ [" "%byte] ++
                                                      digest))])
                                     (fun _ => ret tt))))))) h1
             end).
  { intros r Hr. unfold _authenticate_cram_md5, credentials.
    cbn [source username password].
    unfold bind at 1. unfold lift at 1.
    rewrite (password_digest_text u p Hp).
    unfold bind at 1. unfold send at 1. unfold call at 1.
    fold cmd1. rewrite Hr. destruct r; reflexivity. }
  split; [| split; [| split]].
  - intros e He. apply (U _ He).
  - intros resp Hr Hpay. rewrite (U _ Hr).
    cbv beta iota zeta delta [bind lift getitem py_encode_utf8].
    rewrite Hpay. reflexivity.
  - intros resp challenge e Hr Hpay Hb. rewrite (U _ Hr).
    cbv beta iota zeta delta [bind lift getitem py_encode_utf8].
    rewrite Hpay, Hb. reflexivity.
  - intros resp challenge c Hr Hpay Hb Hcid. rewrite (U _ Hr).
    cbv beta iota zeta delta [bind lift getitem py_encode_utf8].
    rewrite Hpay, Hb. unfold hmac_md5_hexdigest. rewrite b_hexlify, Hcid.
    reflexivity.
Qed.

(** A server that answers [saslStart] with a textual payload. *)
Lemma cram_md5_bad_reply_witness :
  _authenticate_cram_md5
    (Collaborators true
       (fun _ _ _ _ => Ret {[ lit "payload" := str "PDE4OTY+" ]})
       (fun _ _ _ => Ret (1%Z, 7)) (fun _ _ _ => Ret 0%Z)
       (fun _ _ => Ret VNone) (fun _ _ _ => Ret 1%Z)
       (fun _ _ _ _ => Ret 1%Z) (fun _ _ => Ret 0%Z))
    (Credential (str "CRAM-MD5") (str "admin") (str "user") (str "pencil")
                None) Mock.sock [] =
  (Raise (TypeError (lit "Strings must be encoded before hashing")),
   [] ++ [Command Mock.sock (str "admin") (saslStart "CRAM-MD5" (VBinary []))]).
Proof.
  refine (proj1 (proj2 (proj2
            (cram_md5_bad_reply _ Mock.sock (str "admin") (lit "user")
               (lit "pencil") (str "CRAM-MD5") None [] _)))
            {[ lit "payload" := str "PDE4OTY+" ]} (str "PDE4OTY+") _ _ _ _);
    [discriminate | reflexivity | reflexivity | reflexivity].
Defined.

(** X11: a MONGODB-CR run that does not get a nonce stops after the one
    [getnonce] command, for every credential: an error of the command
    is passed on, and a reply without ["nonce"] gives [KeyError]; no
    [authenticate] command is sent. *)
Theorem mongo_cr_bad_reply (K : collaborators)
    (credentials : MongoCredential) (sock : sock_info) (h : history) :
  let cmd1 := [(lit "getnonce", VInt 1)] in
  let h1 := h ++ [Command sock (source credentials) cmd1] in
  (forall e, cmd_func K h sock (source credentials) cmd1 = Raise e ->
     _authenticate_mongo_cr K credentials sock h = (Raise e, h1)) /\
  (forall resp, cmd_func K h sock (source credentials) cmd1 = Ret resp ->
     resp !! lit "nonce" = None ->
     _authenticate_mongo_cr K credentials sock h =
       (Raise (KeyError (lit "nonce")), h1)).
Proof.
  intros cmd1 h1. split.
  - intros e He. unfold _authenticate_mongo_cr.
    cbv beta iota zeta delta [bind lift send call getitem].
    fold cmd1. rewrite He. reflexivity.
  - intros resp Hr Hn. unfold _authenticate_mongo_cr.
    cbv beta iota zeta delta [bind lift send call getitem].
    fold cmd1. rewrite Hr, Hn. reflexivity.
Qed.

(** A server that refuses [getnonce]. *)
Lemma mongo_cr_bad_reply_witness :
  _authenticate_mongo_cr
    (Collaborators true
       (fun _ _ _ _ => Raise (OperationFailure (lit "no such cmd")))
       (fun _ _ _ => Ret (1%Z, 7)) (fun _ _ _ => Ret 0%Z)
       (fun _ _ => Ret VNone) (fun _ _ _ => Ret 1%Z)
       (fun _ _ _ _ => Ret 1%Z) (fun _ _ => Ret 0%Z))
    (Credential (str "MONGODB-CR") (str "admin") (str "bob") (str "pw") None)
    Mock.sock [] =
  (Raise (OperationFailure (lit "no such cmd")),
   [] ++ [Command Mock.sock (str "admin") [(lit "getnonce", VInt 1)]]).
Proof.
  refine (proj1 (mongo_cr_bad_reply _
            (Credential (str "MONGODB-CR") (str "admin") (str "bob")
                        (str "pw") None) Mock.sock []) _ _).
  reflexivity.
Defined.

(** *** GSSAPI: errors and the start of a run *)

Lemma translated_not_krb {A} (r : result A) (msg : text) :
  translated r <> Raise (KrbError msg).
Proof. destruct r as [x | e]; [discriminate |]. destruct e; discriminate. Qed.

Lemma gssapi_result_not_krb (K : collaborators)
    (credentials : MongoCredential) (sock : sock_info) (h : history)
    (msg : text) :
  fst (_authenticate_gssapi K credentials sock h) <> Raise (KrbError msg).
Proof.
  destruct (HAVE_KERBEROS K) eqn:Hk.
  - rewrite (gssapi_unfold K credentials sock h Hk).
    destruct (service_principal credentials sock) as [service | e] eqn:E.
    + cbv zeta.
      destruct (authGSSClientInit K h service GSS_C_MUTUAL_FLAG)
        as [[result ctx] | e].
      * destruct (result =? AUTH_GSS_COMPLETE)%Z; [| discriminate].
        destruct (try_finally _ _ _) as [r h2]. apply translated_not_krb.
      * apply translated_not_krb.
    + cbn [fst]. intros H.
      pose proof (service_principal_error credentials sock e E) as T.
      rewrite H in T. discriminate.
  - unfold _authenticate_gssapi. rewrite Hk. discriminate.
Qed.

(** X12: no run of the GSSAPI authenticator, and no run of
    [authenticate] on a GSSAPI credential, ends in a raw
    [kerberos.KrbError], whichever call of the security library or of
    the command channel raised it: the caller never sees that type. *)
Theorem gssapi_never_raises_krb_error (K : collaborators)
    (credentials : MongoCredential) (sock : sock_info) (h : history)
    (msg : text) :
  fst (_authenticate_gssapi K credentials sock h) <> Raise (KrbError msg) /\
  (mechanism credentials = str "GSSAPI" ->
   fst (authenticate K credentials sock h) <> Raise (KrbError msg)).
Proof.
  split; [apply gssapi_result_not_krb |].
  intros Hm. destruct (HAVE_KERBEROS K) eqn:Hk.
  - rewrite (authenticate_dispatch_gssapi K credentials sock h Hm Hk).
    apply gssapi_result_not_krb.
  - unfold authenticate. rewrite Hm, Hk.
    destruct (decide (str "GSSAPI" = str "GSSAPI")); [| congruence].
    discriminate.
Qed.

(** A library whose first step raises [KrbError]: the run ends in
    [OperationFailure]. *)
Lemma gssapi_never_raises_krb_error_witness :
  fst (authenticate
         (Collaborators true (fun _ _ _ _ => Ret Mock.reply)
            (fun _ _ _ => Ret (1%Z, 7))
            (fun _ _ _ => Raise (KrbError (lit "no ticket")))
            (fun _ _ => Ret VNone) (fun _ _ _ => Ret 1%Z)
            (fun _ _ _ _ => Ret 1%Z) (fun _ _ => Ret 0%Z))
         Mock.gssapi_credential Mock.sock []) <>
  Raise (KrbError (lit "no ticket")).
Proof.
  refine (proj2 (gssapi_never_raises_krb_error _ Mock.gssapi_credential
                   Mock.sock [] (lit "no ticket")) _).
  reflexivity.
Defined.

(** X13: a GSSAPI run that does not get a context sends nothing (with
    the [kerberos] module present).  When the principal cannot be built
    (no properties, no ["service_name"], a service name or a host that
    is no text) the run fails with that error and the history is
    unchanged; when [authGSSClientInit] raises, the only event is that
    call, a [KrbError] comes out as [OperationFailure] with the same
    message, and nothing is released, there being no context. *)
Theorem gssapi_without_context (K : collaborators)
    (credentials : MongoCredential) (sock : sock_info) (h : history) :
  HAVE_KERBEROS K = true ->
  (forall e, service_principal credentials sock = Raise e ->
     _authenticate_gssapi K credentials sock h = (Raise e, h)) /\
  (forall service e, service_principal credentials sock = Ret service ->
     authGSSClientInit K h service GSS_C_MUTUAL_FLAG = Raise e ->
     _authenticate_gssapi K credentials sock h =
       (match e with
        | KrbError msg => Raise (OperationFailure msg)
        | _ => Raise e
        end, h ++ [GSSInit service GSS_C_MUTUAL_FLAG])) /\
  (mechanism_properties credentials = None ->
     exists msg, _authenticate_gssapi K credentials sock h =
                   (Raise (TypeError msg), h)) /\
  (forall props, mechanism_properties credentials = Some props ->
     props !! lit "service_name" = None ->
     _authenticate_gssapi K credentials sock h =
       (Raise (KeyError (lit "service_name")), h)).
Proof.
  intros Hk. split; [| split; [| split]].
  - intros e He. rewrite (gssapi_unfold K credentials sock h Hk), He.
    reflexivity.
  - intros service e Hs He.
    rewrite (gssapi_unfold K credentials sock h Hk), Hs. cbv zeta.
    rewrite He. destruct e; reflexivity.
  - intros Hmp. eexists.
    rewrite (gssapi_unfold K credentials sock h Hk).
    unfold service_principal. rewrite Hmp. reflexivity.
  - intros props Hmp Hn.
    rewrite (gssapi_unfold K credentials sock h Hk).
    unfold service_principal, getitem. rewrite Hmp, Hn. reflexivity.
Qed.

(** A credential without properties, as the builder makes it for
    PLAIN, handed to the GSSAPI authenticator. *)
Lemma gssapi_without_context_witness :
  exists msg,
    _authenticate_gssapi (Mock.mock true 1 None)
      (Credential (str "GSSAPI") (str "$external") (str "user") VNone None)
      Mock.sock [] = (Raise (TypeError msg), []).
Proof.
  refine (proj1 (proj2 (proj2
            (gssapi_without_context (Mock.mock true 1 None)
               (Credential (str "GSSAPI") (str "$external") (str "user")
                           VNone None) Mock.sock [] _))) _);
    reflexivity.
Defined.

(** X14: the first step of the context must ask for continuation.
    When the context is initialised and the first step, made with the
    empty challenge, returns anything but 0 (completion included), the
    run makes exactly three calls, the initialisation, that step and
    the release of the context; no command is sent; and, the release
    returning, the run fails with [OperationFailure]. *)
Theorem gssapi_first_step_must_continue (K : collaborators)
    (credentials : MongoCredential) (sock : sock_info) (h : history)
    (service : value) (ctx : context) (r : Z) :
  HAVE_KERBEROS K = true ->
  service_principal credentials sock = Ret service ->
  authGSSClientInit K h service GSS_C_MUTUAL_FLAG =
    Ret (AUTH_GSS_COMPLETE, ctx) ->
  let h1 := h ++ [GSSInit service GSS_C_MUTUAL_FLAG] in
  authGSSClientStep K h1 ctx [] = Ret r ->
  r <> 0%Z ->
  let h2 := h1 ++ [GSSStep ctx []] in
  exists res,
    _authenticate_gssapi K credentials sock h = (res, h2 ++ [GSSClean ctx]) /\
    (forall z, authGSSClientClean K h2 ctx = Ret z ->
       res = Raise (OperationFailure
                      (lit "Unknown kerberos failure in step function."))).
Proof.
  intros Hk Hs Hinit h1 Hstep Hr h2.
  rewrite (gssapi_unfold K credentials sock h Hk), Hs. cbv zeta.
  rewrite Hinit, Z.eqb_refl. fold h1.
  unfold try_finally, gssapi_handshake, kerberos_authGSSClientStep,
    kerberos_authGSSClientClean.
  cbv beta iota zeta delta [bind call raise]. rewrite Hstep.
  destruct (Z.eqb_spec r 0) as [E | _]; [contradiction |].
  cbn [negb]. fold h2.
  destruct (authGSSClientClean K h2 ctx) as [z | e] eqn:Hc.
  - eexists. split; [reflexivity |]. intros z' _. reflexivity.
  - eexists. split; [reflexivity |]. intros z' Hz. discriminate.
Qed.

(** A library whose first step reports completion at once. *)
Lemma gssapi_first_step_must_continue_witness :
  exists res,
    _authenticate_gssapi (Mock.mock true 1 (Some 0%nat))
      Mock.gssapi_credential Mock.sock [] =
      (res, (([] ++ [GSSInit (str "mongodb@db.example.com")
                       GSS_C_MUTUAL_FLAG]) ++ [GSSStep 7 []]) ++
            [GSSClean 7]) /\
    (forall z,
       authGSSClientClean (Mock.mock true 1 (Some 0%nat))
         (([] ++ [GSSInit (str "mongodb@db.example.com") GSS_C_MUTUAL_FLAG])
          ++ [GSSStep 7 []]) 7 = Ret z ->
       res = Raise (OperationFailure
                      (lit "Unknown kerberos failure in step function."))).
Proof.
  apply (gssapi_first_step_must_continue (Mock.mock true 1 (Some 0%nat))
           Mock.gssapi_credential Mock.sock []
           (str "mongodb@db.example.com") 7 1%Z);
    [reflexivity | vm_compute; reflexivity | reflexivity | reflexivity |
     discriminate].
Defined.

Lemma gssapi_starts_with_init (K : collaborators)
    (credentials : MongoCredential) (sock : sock_info) (h : history)
    (service : value) :
  HAVE_KERBEROS K = true ->
  service_principal credentials sock = Ret service ->
  exists evs,
    snd (_authenticate_gssapi K credentials sock h) =
      h ++ GSSInit service GSS_C_MUTUAL_FLAG :: evs.
Proof.
  intros Hk Hs. rewrite (gssapi_unfold K credentials sock h Hk), Hs. cbv zeta.
  destruct (authGSSClientInit K h service GSS_C_MUTUAL_FLAG)
    as [[result ctx] | e]; [| exists []; reflexivity].
  destruct (result =? AUTH_GSS_COMPLETE)%Z; [| exists []; reflexivity].
  destruct (emits_try_finally is_clean 0 1 1 _ _
              (handshake_no_clean K (username credentials) sock ctx)
              (emits_call is_clean 1 (GSSClean ctx)
                 (fun h' => authGSSClientClean K h' ctx) (Nat.le_refl 1))
              (Nat.le_refl 1)
              (h ++ [GSSInit service GSS_C_MUTUAL_FLAG]))
    as (evs & E & _).
  unfold kerberos_authGSSClientClean.
  destruct (try_finally _ _ _) as [r h2]. cbn [snd] in *.
  exists evs. rewrite E, <- app_assoc. reflexivity.
Qed.

(** X15: the builder and the GSSAPI authenticator fit together.  For a
    credential built for GSSAPI and a connection with a textual host,
    the principal is ["<name>@<host>"], where [name] is the caller's
    ["gssapiservicename"] and ["mongodb"] without one, and the run
    opens with [authGSSClientInit] on that principal with the mutual
    authentication flag; a service name that is no text makes the run
    fail with [TypeError] before any call. *)
Theorem built_gssapi_principal (K : collaborators)
    (source user passwd : value) (extra : dict) (hostname : text)
    (h : history) :
  let c := _build_credentials_tuple (str "GSSAPI") source user passwd extra in
  let sock := SockInfo (VStr hostname) in
  HAVE_KERBEROS K = true ->
  (forall name : text,
     default (str "mongodb") (extra !! lit "gssapiservicename") = VStr name ->
     exists evs,
       snd (_authenticate_gssapi K c sock h) =
         h ++ GSSInit (VStr (name ++ lit "@" ++ hostname)) GSS_C_MUTUAL_FLAG
           :: evs) /\
  (forall v, extra !! lit "gssapiservicename" = Some v ->
     is_string v = false ->
     exists msg,
       _authenticate_gssapi K c sock h = (Raise (TypeError msg), h)).
Proof.
  intros c sock Hk.
  assert (Hc : c = Credential (str "GSSAPI") (str "$external") user VNone
                 (Some {[ lit "service_name" :=
                            default (str "mongodb")
                              (extra !! lit "gssapiservicename") ]})).
  { unfold c, _build_credentials_tuple.
    destruct (decide (str "GSSAPI" = str "GSSAPI")); [reflexivity |].
    congruence. }
  assert (Hp : service_principal c sock =
               match py_add (default (str "mongodb")
                               (extra !! lit "gssapiservicename"))
                            (str "@") with
               | Ret prefix => py_add prefix (VStr hostname)
               | Raise e => Raise e
               end).
  { rewrite Hc. unfold service_principal, getitem.
    cbn [mechanism_properties host sock].
    rewrite lookup_singleton_eq. reflexivity. }
  split.
  - intros name Hn. rewrite Hn in Hp.
    apply (gssapi_starts_with_init K c sock h _ Hk).
    rewrite Hp. cbn [py_add str]. rewrite <- app_assoc. reflexivity.
  - intros v Hv Hs. rewrite Hv in Hp. cbn [default] in Hp.
    destruct v as [| n | s | x | x]; try discriminate;
      eexists; rewrite (gssapi_unfold K c sock h Hk), Hp; reflexivity.
Qed.

(** The default service name, on the host of the scenarios. *)
Lemma built_gssapi_principal_witness :
  exists evs,
    snd (_authenticate_gssapi (Mock.mock true 1 None)
           (_build_credentials_tuple (str "GSSAPI") (str "admin")
              (str "user@EXAMPLE.COM") (str "ignored") ∅)
           (SockInfo (VStr (lit "db.example.com"))) []) =
    [] ++ GSSInit (VStr (lit "mongodb" ++ lit "@" ++ lit "db.example.com"))
            GSS_C_MUTUAL_FLAG :: evs.
Proof.
  refine (proj1 (built_gssapi_principal (Mock.mock true 1 None) (str "admin")
                   (str "user@EXAMPLE.COM") (str "ignored") ∅
                   (lit "db.example.com") [] _) (lit "mongodb") _);
    reflexivity.
Defined.

(** *** GSSAPI: the loop and the replies *)

Lemma negotiate_returns (K : collaborators) (sock : sock_info)
    (ctx : context) (n : nat) :
  forall (response response' : dict) (h h' : history),
    negotiate K n sock ctx response h = (Ret response', h') ->
    exists hs challenge cid out,
      authGSSClientStep K hs ctx challenge = Ret AUTH_GSS_COMPLETE /\
      cmd_func K ((hs ++ [GSSStep ctx challenge]) ++ [GSSResponse ctx]) sock
        (str "$external") (saslContinue cid (py_or out (str ""))) =
        Ret response' /\
      h' = ((hs ++ [GSSStep ctx challenge]) ++ [GSSResponse ctx]) ++
           [Command sock (str "$external")
              (saslContinue cid (py_or out (str "")))].
Proof.
  induction n as [| n IH]; intros response response' h h' H.
  - discriminate.
  - cbn [negotiate] in H.
    unfold kerberos_authGSSClientStep, kerberos_authGSSClientResponse in H.
    cbv beta iota zeta delta [bind lift send call getitem ret raise] in H.
    destruct (response !! lit "payload") as [payload |]; [| discriminate].
    destruct (authGSSClientStep K h ctx (py_str payload)) as [r | e] eqn:Es;
      [| discriminate].
    destruct (r =? -1)%Z; [discriminate |].
    destruct (authGSSClientResponse K _ ctx) as [out | e]; [| discriminate].
    destruct (response !! lit "conversationId") as [cid |]; [| discriminate].
    destruct (cmd_func K _ sock (str "$external") _) as [resp1 | e] eqn:Ec;
      [| discriminate].
    destruct (Z.eqb_spec r AUTH_GSS_COMPLETE) as [-> | _].
    + injection H as <- <-.
      exists h, (py_str payload), cid, out. repeat split; assumption.
    + apply (IH _ _ _ _ H).
Qed.

(** X16: the negotiate loop never ends well without completion.  When
    the loop returns a reply, a step of the context has answered
    [AUTH_GSS_COMPLETE], and the last three actions of the loop are
    that step, the reading of the context's response and the
    [saslContinue] command whose reply is returned. *)
Theorem negotiate_success_means_complete (K : collaborators)
    (sock : sock_info) (ctx : context) (n : nat)
    (response response' : dict) (h h' : history) :
  negotiate K n sock ctx response h = (Ret response', h') ->
  exists hs challenge cid out,
    authGSSClientStep K hs ctx challenge = Ret AUTH_GSS_COMPLETE /\
    cmd_func K ((hs ++ [GSSStep ctx challenge]) ++ [GSSResponse ctx]) sock
      (str "$external")
      [(lit "saslContinue", VInt 1); (lit "conversationId", cid);
       (lit "payload", py_or out (str ""))] = Ret response' /\
    h' = ((hs ++ [GSSStep ctx challenge]) ++ [GSSResponse ctx]) ++
         [Command sock (str "$external")
            [(lit "saslContinue", VInt 1); (lit "conversationId", cid);
             (lit "payload", py_or out (str ""))]].
Proof. apply negotiate_returns. Qed.

(** A library that completes at the second step of the loop. *)
Lemma negotiate_success_means_complete_witness :
  exists hs challenge cid out,
    authGSSClientStep (Mock.mock true 1 (Some 1%nat)) hs 7 challenge =
      Ret AUTH_GSS_COMPLETE /\
    cmd_func (Mock.mock true 1 (Some 1%nat))
      ((hs ++ [GSSStep 7 challenge]) ++ [GSSResponse 7]) Mock.sock
      (str "$external")
      [(lit "saslContinue", VInt 1); (lit "conversationId", cid);
       (lit "payload", py_or out (str ""))] = Ret Mock.reply /\
    snd (negotiate (Mock.mock true 1 (Some 1%nat)) 10 Mock.sock 7 Mock.reply
           []) =
      ((hs ++ [GSSStep 7 challenge]) ++ [GSSResponse 7]) ++
      [Command Mock.sock (str "$external")
         [(lit "saslContinue", VInt 1); (lit "conversationId", cid);
          (lit "payload", py_or out (str ""))]].
Proof.
  apply (negotiate_success_means_complete (Mock.mock true 1 (Some 1%nat))
           Mock.sock 7 10 Mock.reply Mock.reply []).
  reflexivity.
Defined.

(** X17: the GSSAPI authenticator translates the errors of the security
    library only.  When the server answers [saslStart] with a reply
    that has no ["payload"], the loop fails at its first reading of the
    reply: the run has made five calls, the initialisation, the first
    step, the reading of the response, [saslStart] and the release of
    the context, and, the release returning, it ends in a bare
    [KeyError], not in [OperationFailure]. *)
Theorem gssapi_reply_without_payload (K : collaborators)
    (credentials : MongoCredential) (sock : sock_info) (h : history)
    (service out : value) (ctx : context) (resp : dict) :
  HAVE_KERBEROS K = true ->
  service_principal credentials sock = Ret service ->
  authGSSClientInit K h service GSS_C_MUTUAL_FLAG =
    Ret (AUTH_GSS_COMPLETE, ctx) ->
  let h1 := h ++ [GSSInit service GSS_C_MUTUAL_FLAG] in
  authGSSClientStep K h1 ctx [] = Ret 0%Z ->
  let h2 := h1 ++ [GSSStep ctx []] in
  authGSSClientResponse K h2 ctx = Ret out ->
  let h3 := h2 ++ [GSSResponse ctx] in
  let cmd := [(lit "saslStart", VInt 1); (lit "mechanism", str "GSSAPI");
              (lit "payload", out); (lit "autoAuthorize", VInt 1)] in
  cmd_func K h3 sock (str "$external") cmd = Ret resp ->
  resp !! lit "payload" = None ->
  let h4 := h3 ++ [Command sock (str "$external") cmd] in
  exists res,
    _authenticate_gssapi K credentials sock h = (res, h4 ++ [GSSClean ctx]) /\
    (forall z, authGSSClientClean K h4 ctx = Ret z ->
       res = Raise (KeyError (lit "payload"))).
Proof.
  intros Hk Hs Hinit h1 Hstep h2 Hout h3 cmd Hcmd Hpay h4.
  rewrite (gssapi_unfold K credentials sock h Hk), Hs. cbv zeta.
  rewrite Hinit, Z.eqb_refl. fold h1.
  unfold try_finally, gssapi_handshake, kerberos_authGSSClientStep,
    kerberos_authGSSClientResponse, kerberos_authGSSClientClean.
  unfold bind at 1. unfold call at 1. rewrite Hstep. cbn [Z.eqb negb].
  fold h2. unfold bind at 1. unfold call at 1. rewrite Hout. fold h3.
  unfold bind at 1. unfold send at 1. unfold call at 1. fold cmd.
  rewrite Hcmd. fold h4.
  unfold bind at 1. cbn [negotiate]. unfold bind at 1. unfold lift at 1.
  unfold getitem at 1. rewrite Hpay.
  unfold call.
  destruct (authGSSClientClean K h4 ctx) as [z | e].
  - eexists. split; [reflexivity |]. intros z' _. reflexivity.
  - eexists. split; [reflexivity |]. intros z' Hz. discriminate.
Qed.

(** A server whose replies are empty documents. *)
Lemma gssapi_reply_without_payload_witness :
  exists res,
    _authenticate_gssapi
      (Collaborators true (fun _ _ _ _ => Ret ∅)
         (fun _ _ _ => Ret (1%Z, 7)) (fun _ _ _ => Ret 0%Z)
         (fun _ _ => Ret (str "dG9rZW4=")) (fun _ _ _ => Ret 1%Z)
         (fun _ _ _ _ => Ret 1%Z) (fun _ _ => Ret 0%Z))
      Mock.gssapi_credential Mock.sock [] =
      (res,
       (((([] ++ [GSSInit (str "mongodb@db.example.com") GSS_C_MUTUAL_FLAG])
          ++ [GSSStep 7 []]) ++ [GSSResponse 7]) ++
        [Command Mock.sock (str "$external")
           [(lit "saslStart", VInt 1); (lit "mechanism", str "GSSAPI");
            (lit "payload", str "dG9rZW4="); (lit "autoAuthorize", VInt 1)]])
       ++ [GSSClean 7]) /\
    res = Raise (KeyError (lit "payload")).
Proof.
  destruct (gssapi_reply_without_payload
              (Collaborators true (fun _ _ _ _ => Ret ∅)
                 (fun _ _ _ => Ret (1%Z, 7)) (fun _ _ _ => Ret 0%Z)
                 (fun _ _ => Ret (str "dG9rZW4=")) (fun _ _ _ => Ret 1%Z)
                 (fun _ _ _ _ => Ret 1%Z) (fun _ _ => Ret 0%Z))
              Mock.gssapi_credential Mock.sock []
              (str "mongodb@db.example.com") (str "dG9rZW4=") 7 ∅)
    as (res & E & Hres);
    [reflexivity | vm_compute; reflexivity | reflexivity | reflexivity |
     reflexivity | reflexivity | reflexivity |].
  exists res. split; [exact E | apply (Hres 0%Z); reflexivity].
Defined.

(** *** What a run may cost and whom it may call *)

Lemma auth_map_lookup_cases (K : collaborators) (s : text)
    (f : authenticator) :
  _AUTH_MAP K !! s = Some f ->
  (s = lit "CRAM-MD5" /\ f = _authenticate_cram_md5 K) \/
  (s = lit "GSSAPI" /\ f = _authenticate_gssapi K) \/
  (s = lit "MONGODB-CR" /\ f = _authenticate_mongo_cr K) \/
  (s = lit "MONGODB-X509" /\ f = _authenticate_x509 K) \/
  (s = lit "PLAIN" /\ f = _authenticate_plain K).
Proof.
  unfold _AUTH_MAP. intros H.
  repeat (rewrite lookup_insert in H;
          destruct (decide _) as [<- | _];
          [injection H as <-; tauto |]).
  rewrite lookup_empty in H. discriminate.
Qed.

Section Costs.

Variable K : collaborators.
Variable credentials : MongoCredential.
Variable sock : sock_info.

Lemma plain_commands : emits is_command 1 (_authenticate_plain K credentials sock).
Proof. unfold _authenticate_plain. unfold_calls. emits_chain. Qed.

Lemma plain_no_kerberos :
  emits is_kerberos 0 (_authenticate_plain K credentials sock).
Proof. unfold _authenticate_plain. unfold_calls. emits_chain. Qed.

Lemma x509_commands : emits is_command 1 (_authenticate_x509 K credentials sock).
Proof. unfold _authenticate_x509. unfold_calls. emits_chain. Qed.

Lemma x509_no_kerberos :
  emits is_kerberos 0 (_authenticate_x509 K credentials sock).
Proof. unfold _authenticate_x509. unfold_calls. emits_chain. Qed.

Lemma cram_md5_commands :
  emits is_command 2 (_authenticate_cram_md5 K credentials sock).
Proof. unfold _authenticate_cram_md5. unfold_calls. emits_chain. Qed.

Lemma cram_md5_no_kerberos :
  emits is_kerberos 0 (_authenticate_cram_md5 K credentials sock).
Proof. unfold _authenticate_cram_md5. unfold_calls. emits_chain. Qed.

Lemma mongo_cr_commands :
  emits is_command 2 (_authenticate_mongo_cr K credentials sock).
Proof. unfold _authenticate_mongo_cr. unfold_calls. emits_chain. Qed.

Lemma mongo_cr_no_kerberos :
  emits is_kerberos 0 (_authenticate_mongo_cr K credentials sock).
Proof. unfold _authenticate_mongo_cr. unfold_calls. emits_chain. Qed.

End Costs.

Lemma foreign_command_external (sock : sock_info) (cmd : SON) :
  is_foreign_command (Command sock (str "$external") cmd) = false.
Proof.
  unfold is_foreign_command.
  rewrite bool_decide_eq_true_2 by reflexivity. reflexivity.
Qed.

Lemma send_external (K : collaborators) (sock : sock_info) (cmd : SON)
    (n : nat) :
  emits is_foreign_command n (send K sock (str "$external") cmd).
Proof.
  unfold send. apply emits_call. unfold count. cbn [List.filter].
  rewrite foreign_command_external. apply Nat.le_0_l.
Qed.

Ltac unfold_kerberos :=
  unfold kerberos_authGSSClientInit, kerberos_authGSSClientStep,
    kerberos_authGSSClientResponse, kerberos_authGSSClientUnwrap,
    kerberos_authGSSClientWrap, kerberos_authGSSClientClean.

Ltac emits_external :=
  repeat first
    [ apply send_external
    | apply emits_lift | apply emits_ret | apply emits_raise
    | apply emits_call; apply Nat.le_0_l
    | apply emits_bind_silent; [| intros ?]
    | match goal with
      | |- emits _ _ (if ?c then _ else _) => destruct c
      | |- emits _ _ (match ?x with Some _ => _ | None => _ end) => destruct x
      | |- emits _ _ (let '(_, _) := ?x in _) => destruct x
      end ].

Section GssapiCosts.

Variable K : collaborators.
Variable sock : sock_info.

Lemma negotiate_external (ctx : context) (n : nat) (response : dict) :
  emits is_foreign_command 0 (negotiate K n sock ctx response).
Proof.
  revert response. induction n as [| n IH]; intros response;
    cbn [negotiate]; unfold_kerberos; emits_external. apply IH.
Qed.

Lemma handshake_external (user : value) (ctx : context) :
  emits is_foreign_command 0 (gssapi_handshake K user sock ctx).
Proof.
  unfold gssapi_handshake. unfold_kerberos.
  do 3 (apply emits_bind_silent; [emits_external | intros ?];
        try match goal with
            | |- emits _ _ (if ?c then _ else _) =>
                destruct c; [apply emits_raise |]
            end).
  apply emits_bind_silent; [apply negotiate_external | intros response'].
  emits_external.
Qed.

Lemma gssapi_external (credentials : MongoCredential) :
  emits is_foreign_command 0 (_authenticate_gssapi K credentials sock).
Proof.
  unfold _authenticate_gssapi.
  destruct (negb (HAVE_KERBEROS K)); [apply emits_raise |].
  apply emits_except; [| intros msg; apply emits_raise].
  apply emits_bind_silent; [destruct (mechanism_properties credentials);
                            emits_external | intros gsn].
  apply emits_bind_silent; [apply emits_lift | intros prefix].
  apply emits_bind_silent; [apply emits_lift | intros service].
  unfold kerberos_authGSSClientInit.
  apply emits_bind_silent; [apply emits_call; apply Nat.le_0_l |
                            intros [result ctx]].
  destruct (negb (result =? AUTH_GSS_COMPLETE)%Z); [apply emits_raise |].
  apply (emits_try_finally is_foreign_command 0 0 0);
    [apply handshake_external |
     unfold kerberos_authGSSClientClean; apply emits_call; apply Nat.le_0_l |
     lia].
Qed.

Lemma negotiate_calls (ctx : context) (n : nat) (response : dict) :
  emits is_call (3 * n) (negotiate K n sock ctx response).
Proof.
  revert response. induction n as [| n IH]; intros response;
    cbn [negotiate]; unfold_calls.
  - apply emits_raise.
  - replace (3 * S n)%nat with (S (S (S (3 * n)))) by lia.
    emits_chain. apply IH.
Qed.

Lemma handshake_calls (user : value) (ctx : context) :
  emits is_call 38 (gssapi_handshake K user sock ctx).
Proof.
  unfold gssapi_handshake. unfold_calls.
  apply emits_bind_one; [emits_head | intros first].
  destruct (negb (first =? 0)%Z); [emits_head |].
  apply emits_bind_one; [emits_head | intros payload].
  apply emits_bind_one; [emits_head | intros response].
  apply (emits_bind is_call 30 5 35);
    [apply (negotiate_calls ctx 10) | intros response' | lia].
  emits_chain.
Qed.

Lemma gssapi_calls (credentials : MongoCredential) :
  emits is_call 40 (_authenticate_gssapi K credentials sock).
Proof.
  unfold _authenticate_gssapi.
  destruct (negb (HAVE_KERBEROS K)); [emits_head |].
  apply emits_except; [| intros msg; emits_head].
  apply emits_bind_silent; [destruct (mechanism_properties credentials);
                            emits_head | intros gsn].
  apply emits_bind_silent; [emits_head | intros prefix].
  apply emits_bind_silent; [emits_head | intros service].
  unfold_calls. apply emits_bind_one; [emits_head | intros [result ctx]].
  destruct (negb (result =? AUTH_GSS_COMPLETE)%Z); [emits_head |].
  apply (emits_try_finally is_call 38 1 39);
    [apply handshake_calls | emits_head | lia].
Qed.

End GssapiCosts.

Lemma count_zero (kind : event -> bool) (evs : history) (ev : event) :
  (count kind evs <= 0)%nat -> In ev evs -> kind ev = false.
Proof.
  unfold count. induction evs as [| x evs IH]; intros Hc Hin; [destruct Hin |].
  cbn [List.filter] in Hc. destruct (kind x) eqn:Ex.
  - cbn [length] in Hc. lia.
  - destruct Hin as [<- | Hin]; [exact Ex | apply IH; assumption].
Qed.

Lemma authenticate_emits (kind : event -> bool) (n : nat) (K : collaborators)
    (credentials : MongoCredential) (sock : sock_info) :
  (forall s f, mechanism credentials = VStr s -> _AUTH_MAP K !! s = Some f ->
     emits kind n (f credentials sock)) ->
  emits kind n (authenticate K credentials sock).
Proof.
  intros H. unfold authenticate. apply emits_bind_silent.
  - destruct (decide _); [destruct (negb _) |];
      first [apply emits_raise | apply emits_ret].
  - intros _. unfold auth_map_get.
    destruct (mechanism credentials) as [| z | s | x | x];
      try apply emits_raise.
    destruct (_AUTH_MAP K !! s) as [f |] eqn:E; [| apply emits_raise].
    apply (H s f eq_refl E).
Qed.

(** X18: every command of a GSSAPI run is sent to ["$external"],
    whatever source the credential carries and whatever the
    collaborators answer. *)
Theorem gssapi_commands_go_external (K : collaborators)
    (credentials : MongoCredential) (sock : sock_info) (h : history) :
  exists evs,
    snd (_authenticate_gssapi K credentials sock h) = h ++ evs /\
    forall s dbname cmd,
      In (Command s dbname cmd) evs -> dbname = str "$external".
Proof.
  destruct (gssapi_external K sock credentials h) as (evs & E & Hc).
  exists evs. split; [exact E |].
  intros s dbname cmd Hin.
  pose proof (count_zero is_foreign_command evs _ Hc Hin) as F.
  unfold is_foreign_command in F. apply negb_false_iff in F.
  apply bool_decide_eq_true_1 in F. exact F.
Qed.

(** X19: for a credential of any mechanism but GSSAPI, whatever it is,
    [authenticate] never calls into the [kerberos] module and sends at
    most two commands. *)
Theorem other_mechanisms_cost (K : collaborators)
    (credentials : MongoCredential) (sock : sock_info) :
  mechanism credentials <> str "GSSAPI" ->
  emits is_kerberos 0 (authenticate K credentials sock) /\
  emits is_command 2 (authenticate K credentials sock).
Proof.
  intros Hm. split; apply authenticate_emits; intros s f Hs Hf;
    apply auth_map_lookup_cases in Hf
      as [[-> ->] | [[-> ->] | [[-> ->] | [[-> ->] | [-> ->]]]]];
    try (exfalso; apply Hm; exact Hs).
  - apply cram_md5_no_kerberos.
  - apply mongo_cr_no_kerberos.
  - apply x509_no_kerberos.
  - apply plain_no_kerberos.
  - apply cram_md5_commands.
  - apply mongo_cr_commands.
  - apply (emits_mono is_command 1 2); [apply x509_commands | lia].
  - apply (emits_mono is_command 1 2); [apply plain_commands | lia].
Qed.

(** A MONGODB-CR run: two commands, no call into [kerberos]. *)
Lemma other_mechanisms_cost_witness :
  emits is_kerberos 0
    (authenticate (Mock.mock true 1 None)
       (Credential (str "MONGODB-CR") (str "admin") (str "bob") (str "pw")
                   None) Mock.sock) /\
  emits is_command 2
    (authenticate (Mock.mock true 1 None)
       (Credential (str "MONGODB-CR") (str "admin") (str "bob") (str "pw")
                   None) Mock.sock).
Proof.
  apply (other_mechanisms_cost (Mock.mock true 1 None)
           (Credential (str "MONGODB-CR") (str "admin") (str "bob")
                       (str "pw") None) Mock.sock).
  lit_neq.
Defined.

(** X20: every run of [authenticate] is bounded, for every credential
    and all collaborators: it sends at most 12 commands and makes at
    most 40 calls to its collaborators in all. *)
Theorem authenticate_bounded (K : collaborators)
    (credentials : MongoCredential) (sock : sock_info) (h : history) :
  exists evs,
    snd (authenticate K credentials sock h) = h ++ evs /\
    (count is_command evs <= 12)%nat /\ (length evs <= 40)%nat.
Proof.
  assert (Hc : emits is_command 12 (authenticate K credentials sock)).
  { apply authenticate_emits; intros s f Hs Hf.
    apply auth_map_lookup_cases in Hf
      as [[-> ->] | [[-> ->] | [[-> ->] | [[-> ->] | [-> ->]]]]].
    - apply (emits_mono is_command 2 12); [apply cram_md5_commands | lia].
    - apply gssapi_commands.
    - apply (emits_mono is_command 2 12); [apply mongo_cr_commands | lia].
    - apply (emits_mono is_command 1 12); [apply x509_commands | lia].
    - apply (emits_mono is_command 1 12); [apply plain_commands | lia]. }
  assert (Ha : emits is_call 40 (authenticate K credentials sock)).
  { apply authenticate_emits; intros s f Hs Hf.
    apply auth_map_lookup_cases in Hf
      as [[-> ->] | [[-> ->] | [[-> ->] | [[-> ->] | [-> ->]]]]].
    - unfold _authenticate_cram_md5. unfold_calls.
      apply (emits_mono is_call 2 40); [emits_chain | lia].
    - apply gssapi_calls.
    - unfold _authenticate_mongo_cr. unfold_calls.
      apply (emits_mono is_call 2 40); [emits_chain | lia].
    - unfold _authenticate_x509. unfold_calls.
      apply (emits_mono is_call 1 40); [emits_chain | lia].
    - unfold _authenticate_plain. unfold_calls.
      apply (emits_mono is_call 1 40); [emits_chain | lia]. }
  destruct (Hc h) as (evs & E & H1). destruct (Ha h) as (evs' & E' & H2).
  rewrite E in E'. apply app_inv_head in E'. subst evs'.
  exists evs. split; [exact E |]. split; [exact H1 |].
  unfold count, is_call in H2.
  replace (List.filter (fun _ => true) evs) with evs in H2; [exact H2 |].
  clear. induction evs as [| x evs IH]; [reflexivity |].
  cbn [List.filter]. f_equal. exact IH.
Qed.

(** The bounds are reached: completion at the tenth iteration of the
    loop makes 12 commands and 40 calls. *)
Example authenticate_bounds_reached :
  let out := run (authenticate (Mock.mock true 1 (Some 10%nat))
                    Mock.gssapi_credential Mock.sock) in
  fst out = Ret tt /\ count is_command (snd out) = 12%nat /\
  length (snd out) = 40%nat.
Proof. vm_compute. auto. Qed.

(** *** GSSAPI: what success takes *)

Lemma translated_ret {A} (r : result A) (a : A) :
  translated r = Ret a -> r = Ret a.
Proof. destruct r as [x | e]; [auto |]. destruct e; discriminate. Qed.

Lemma handshake_returns (K : collaborators) (user : value)
    (sock : sock_info) (ctx : context) (h h' : history) :
  gssapi_handshake K user sock ctx h = (Ret tt, h') ->
  (exists hs challenge rest,
     h' = hs ++ GSSStep ctx challenge :: rest /\
     authGSSClientStep K hs ctx challenge = Ret AUTH_GSS_COMPLETE) /\
  (exists hs challenge rest,
     h' = hs ++ GSSUnwrap ctx challenge :: rest /\
     authGSSClientUnwrap K hs ctx challenge = Ret 1%Z) /\
  (exists hs data rest,
     h' = hs ++ GSSWrap ctx data user :: rest /\
     authGSSClientWrap K hs ctx data user = Ret 1%Z) /\
  (exists hs cid payload reply,
     h' = hs ++ [Command sock (str "$external") (saslContinue cid payload)] /\
     cmd_func K hs sock (str "$external") (saslContinue cid payload) =
       Ret reply).
Proof.
  unfold gssapi_handshake. unfold_kerberos. intros H.
  unfold bind at 1 in H. unfold call at 1 in H.
  destruct (authGSSClientStep K h ctx []) as [first | e]; [| discriminate].
  destruct (negb (first =? 0)%Z); [discriminate |].
  unfold bind at 1 in H. unfold call at 1 in H.
  destruct (authGSSClientResponse K _ ctx) as [payload | e]; [| discriminate].
  unfold bind at 1 in H. unfold send at 1 in H. unfold call at 1 in H.
  destruct (cmd_func K _ sock (str "$external") _) as [response | e];
    [| discriminate].
  unfold bind at 1 in H.
  destruct (negotiate K 10 sock ctx response _) as [[response' | e] h2] eqn:En;
    [| discriminate].
  apply negotiate_returns in En
    as (hs & challenge & cid0 & out0 & Hstep & _ & ->).
  unfold bind at 1 in H. unfold lift at 1 in H.
  destruct (getitem response' (lit "payload")) as [ch | e]; [| discriminate].
  unfold bind at 1 in H. unfold call at 1 in H.
  destruct (authGSSClientUnwrap K _ ctx (py_str ch)) as [unwrapped | e] eqn:Eu;
    [| discriminate].
  destruct (Z.eqb_spec unwrapped 1) as [-> | _]; [| discriminate].
  cbn [negb] in H.
  unfold bind at 1 in H. unfold call at 1 in H.
  destruct (authGSSClientResponse K _ ctx) as [data | e]; [| discriminate].
  unfold bind at 1 in H. unfold call at 1 in H.
  destruct (authGSSClientWrap K _ ctx data user) as [wrapped | e] eqn:Ew;
    [| discriminate].
  destruct (Z.eqb_spec wrapped 1) as [-> | _]; [| discriminate].
  cbn [negb] in H.
  unfold bind at 1 in H. unfold call at 1 in H.
  destruct (authGSSClientResponse K _ ctx) as [last | e]; [| discriminate].
  unfold bind at 1 in H. unfold lift at 1 in H.
  destruct (getitem response' (lit "conversationId")) as [cid | e];
    [| discriminate].
  unfold bind at 1 in H. unfold send at 1 in H. unfold call at 1 in H.
  destruct (cmd_func K _ sock (str "$external") _) as [reply | e] eqn:Ec;
    [| discriminate].
  unfold ret in H. injection H as <-.
  split; [| split; [| split]].
  - exists hs, challenge. eexists. split; [| exact Hstep].
    rewrite <- !app_assoc. reflexivity.
  - eexists. exists (py_str ch). eexists. split; [| exact Eu].
    rewrite <- !app_assoc. reflexivity.
  - eexists. exists data. eexists. split; [| exact Ew].
    rewrite <- !app_assoc. reflexivity.
  - eexists. exists cid, last, reply. split; [reflexivity | exact Ec].
Qed.

(** X21: the GSSAPI authenticator reports success only after a whole
    handshake.  When a run returns normally, then in that run a step
    of the context has answered [AUTH_GSS_COMPLETE], [GSS_Unwrap] and
    [GSS_Wrap] (of the username) have both answered 1, and the run ends
    with a [saslContinue] command that the server accepted, followed by
    the release of the context. *)
Theorem gssapi_success_requires (K : collaborators)
    (credentials : MongoCredential) (sock : sock_info) (h h' : history) :
  _authenticate_gssapi K credentials sock h = (Ret tt, h') ->
  exists ctx,
    (exists hs challenge rest,
       h' = hs ++ GSSStep ctx challenge :: rest /\
       authGSSClientStep K hs ctx challenge = Ret AUTH_GSS_COMPLETE) /\
    (exists hs challenge rest,
       h' = hs ++ GSSUnwrap ctx challenge :: rest /\
       authGSSClientUnwrap K hs ctx challenge = Ret 1%Z) /\
    (exists hs data rest,
       h' = hs ++ GSSWrap ctx data (username credentials) :: rest /\
       authGSSClientWrap K hs ctx data (username credentials) = Ret 1%Z) /\
    (exists hs cid payload reply,
       h' = hs ++ [Command sock (str "$external")
                     [(lit "saslContinue", VInt 1);
                      (lit "conversationId", cid); (lit "payload", payload)];
                   GSSClean ctx] /\
       cmd_func K hs sock (str "$external")
         [(lit "saslContinue", VInt 1); (lit "conversationId", cid);
          (lit "payload", payload)] = Ret reply).
Proof.
  intros H.
  destruct (HAVE_KERBEROS K) eqn:Hk;
    [| unfold _authenticate_gssapi in H; rewrite Hk in H; discriminate].
  rewrite (gssapi_unfold K credentials sock h Hk) in H.
  destruct (service_principal credentials sock) as [service | e];
    [| discriminate].
  cbv zeta in H.
  destruct (authGSSClientInit K h service GSS_C_MUTUAL_FLAG)
    as [[result ctx] | e]; [| destruct e; discriminate].
  destruct (result =? AUTH_GSS_COMPLETE)%Z; [| discriminate].
  unfold try_finally in H.
  destruct (gssapi_handshake K (username credentials) sock ctx _)
    as [r1 h2] eqn:Eh.
  unfold kerberos_authGSSClientClean, call in H.
  destruct (authGSSClientClean K h2 ctx) as [z | e];
    [| destruct e; discriminate].
  injection H as Hr <-. apply translated_ret in Hr. subst r1.
  apply handshake_returns in Eh as (H1 & H2 & H3 & H4).
  exists ctx. split; [| split; [| split]].
  - destruct H1 as (hs & c & rest & -> & E).
    exists hs, c. eexists. split; [| exact E].
    rewrite <- app_assoc. reflexivity.
  - destruct H2 as (hs & c & rest & -> & E).
    exists hs, c. eexists. split; [| exact E].
    rewrite <- app_assoc. reflexivity.
  - destruct H3 as (hs & d & rest & -> & E).
    exists hs, d. eexists. split; [| exact E].
    rewrite <- app_assoc. reflexivity.
  - destruct H4 as (hs & cid & payload & reply & -> & E).
    exists hs, cid, payload, reply. split; [| exact E].
    rewrite <- app_assoc. reflexivity.
Qed.

(** The run that completes at the third iteration. *)
Lemma gssapi_success_requires_witness :
  exists ctx,
    (exists hs challenge rest,
       snd (run (_authenticate_gssapi (Mock.mock true 1 (Some 3%nat))
                   Mock.gssapi_credential Mock.sock)) =
         hs ++ GSSStep ctx challenge :: rest /\
       authGSSClientStep (Mock.mock true 1 (Some 3%nat)) hs ctx challenge =
         Ret AUTH_GSS_COMPLETE) /\
    (exists hs challenge rest,
       snd (run (_authenticate_gssapi (Mock.mock true 1 (Some 3%nat))
                   Mock.gssapi_credential Mock.sock)) =
         hs ++ GSSUnwrap ctx challenge :: rest /\
       authGSSClientUnwrap (Mock.mock true 1 (Some 3%nat)) hs ctx challenge =
         Ret 1%Z).
Proof.
  destruct (gssapi_success_requires (Mock.mock true 1 (Some 3%nat))
              Mock.gssapi_credential Mock.sock []
              (snd (run (_authenticate_gssapi (Mock.mock true 1 (Some 3%nat))
                           Mock.gssapi_credential Mock.sock))))
    as (ctx & H1 & H2 & _).
  - reflexivity.
  - exists ctx. split; assumption.
Defined.

(** X22: an error of the release wins over the outcome of the
    handshake.  With the context initialised, whatever the handshake
    came to, success included, when [authGSSClientClean] raises, the
    run ends in that error, a [KrbError] as [OperationFailure] with the
    same message. *)
Theorem gssapi_release_error_wins (K : collaborators)
    (credentials : MongoCredential) (sock : sock_info) (h h2 : history)
    (service : value) (ctx : context) (r1 : result unit) (e : exn) :
  HAVE_KERBEROS K = true ->
  service_principal credentials sock = Ret service ->
  authGSSClientInit K h service GSS_C_MUTUAL_FLAG =
    Ret (AUTH_GSS_COMPLETE, ctx) ->
  gssapi_handshake K (username credentials) sock ctx
    (h ++ [GSSInit service GSS_C_MUTUAL_FLAG]) = (r1, h2) ->
  authGSSClientClean K h2 ctx = Raise e ->
  _authenticate_gssapi K credentials sock h =
    (match e with
     | KrbError msg => Raise (OperationFailure msg)
     | _ => Raise e
     end, h2 ++ [GSSClean ctx]).
Proof.
  intros Hk Hs Hinit Hh Hc.
  rewrite (gssapi_unfold K credentials sock h Hk), Hs. cbv zeta.
  rewrite Hinit, Z.eqb_refl. unfold try_finally. rewrite Hh.
  unfold kerberos_authGSSClientClean, call. rewrite Hc.
  destruct e; reflexivity.
Qed.

(** A handshake that succeeds, and a release that raises. *)
Lemma gssapi_release_error_wins_witness :
  fst (_authenticate_gssapi
         (Collaborators true (fun _ _ _ _ => Ret Mock.reply)
            (fun _ _ _ => Ret (1%Z, 7))
            (fun h _ _ => Ret (if (count is_step h =? 2)%nat
                               then 1%Z else 0%Z))
            (fun _ _ => Ret (str "dG9rZW4=")) (fun _ _ _ => Ret 1%Z)
            (fun _ _ _ _ => Ret 1%Z)
            (fun _ _ => Raise (KrbError (lit "gone"))))
         Mock.gssapi_credential Mock.sock []) =
  Raise (OperationFailure (lit "gone")).
Proof.
  refine (f_equal fst
            (gssapi_release_error_wins
               (Collaborators true (fun _ _ _ _ => Ret Mock.reply)
                  (fun _ _ _ => Ret (1%Z, 7))
                  (fun h _ _ => Ret (if (count is_step h =? 2)%nat
                                     then 1%Z else 0%Z))
                  (fun _ _ => Ret (str "dG9rZW4=")) (fun _ _ _ => Ret 1%Z)
                  (fun _ _ _ _ => Ret 1%Z)
                  (fun _ _ => Raise (KrbError (lit "gone"))))
               Mock.gssapi_credential Mock.sock [] _
               (str "mongodb@db.example.com") 7 (Ret tt) (KrbError (lit "gone"))
               _ _ _ _ _));
    [reflexivity | vm_compute; reflexivity | reflexivity | | reflexivity].
  vm_compute. reflexivity.
Defined.
